(** * Home Connect component: dispatch, polling and lifecycle

    A shallow embedding of
    [homeassistant/components/home_connect/__init__.py] and the
    properties its specification states about it.

    The component is effectful Python: it reads and writes the host's
    process-wide [hass.data] slot, registers services, logs, and pushes
    blocking vendor calls to the host's executor.  We model it in a state
    and exception monad over a record [HomeAssistant] that holds exactly
    the parts of the host the module touches.  What the vendor cloud
    answers, what a platform teardown reports and the constants of the
    sibling module [const.py] are parameters of the development. *)

From stdpp Require Import base option list gmap strings pretty.

Local Open Scope string_scope.
Local Open Scope Z_scope.
Local Open Scope list_scope.

(** ** Python values *)

(** The scalar values that travel in service-call payloads. *)
Inductive value :=
| VNone
| VBool (b : bool)
| VInt (n : Z)
| VStr (s : string).

#[global] Instance value_eq_dec : EqDecision value.
Proof. solve_decision. Defined.

(** An options bundle is a Python dict from field name to scalar. *)
Abbreviation pyobj := (gmap string value).

(** Arguments handed to vendor methods and to the logger: a scalar, or
    the list of option dicts built by the program services. *)
Inductive arg :=
| AVal (v : value)
| AOptions (l : list pyobj).

#[global] Instance arg_eq_dec : EqDecision arg.
Proof. solve_decision. Defined.

(** [x is not None] *)
Definition is_not_None (v : value) : bool :=
  match v with VNone => false | _ => true end.

(** Python's [str(x)] on scalars. *)
Definition py_str (v : value) : string :=
  match v with
  | VNone => "None"
  | VBool true => "True"
  | VBool false => "False"
  | VInt n => pretty n
  | VStr s => s
  end.

(** ** Exceptions and results *)

Inductive exn :=
| KeyError (key : string)
| AttributeError (name : string)
| HTTPError (status_code : Z)
| HomeConnectError
| Invalid
| ServiceNotFound (domain service : string).

#[global] Instance exn_eq_dec : EqDecision exn.
Proof. solve_decision. Defined.

Inductive Result (A : Type) :=
| Ok (a : A)
| Raise (e : exn).
Arguments Ok {A} a.
Arguments Raise {A} e.

#[global] Instance Result_eq_dec `{EqDecision A} : EqDecision (Result A).
Proof. solve_decision. Defined.

(** ** Insertion-ordered dictionaries

    [hass.data[DOMAIN]] is iterated with [.values()], and the resolver
    returns on the first match, so the iteration order of the dict is
    observable.  A Python dict iterates in insertion order; we keep that
    order in an association list with unique keys. *)
Module PyDict.
Section PyDict.
Context {V : Type}.

Definition t := list (string * V).

(** [d.get(k)] *)
Fixpoint get (k : string) (d : t) : option V :=
  match d with
  | [] => None
  | (k', v) :: d' => if decide (k' = k) then Some v else get k d'
  end.

(** [d[k] = v]: an existing key keeps its position, a new key goes last. *)
Fixpoint set (k : string) (v : V) (d : t) : t :=
  match d with
  | [] => [(k, v)]
  | (k', v') :: d' =>
      if decide (k' = k) then (k, v) :: d' else (k', v') :: set k v d'
  end.

(** The dict left by [d.pop(k)]. *)
Fixpoint remove (k : string) (d : t) : t :=
  match d with
  | [] => []
  | (k', v) :: d' =>
      if decide (k' = k) then d' else (k', v) :: remove k d'
  end.

(** [d.values()] *)
Definition values (d : t) : list V := d.*2.

Definition keys (d : t) : list string := d.*1.

End PyDict.
Arguments t : clear implicits.
End PyDict.

(** ** The appliance model of [api.py] and the vendor SDK *)

(** The vendor SDK's appliance handle; [haId] is the appliance's home
    appliance identifier. *)
Record Appliance := { haId : string }.

#[global] Instance Appliance_eq_dec : EqDecision Appliance.
Proof. solve_decision. Defined.

(** A host entity, as far as the resolver looks at it. *)
Record Entity := { entity_id : string }.

#[global] Instance Entity_eq_dec : EqDecision Entity.
Proof. solve_decision. Defined.

(** [api.HomeConnectDevice]: the host-side wrapper of one appliance. *)
Record HomeConnectDevice := {
  appliance : Appliance;
  entities : list Entity;
}.

#[global] Instance HomeConnectDevice_eq_dec : EqDecision HomeConnectDevice.
Proof. solve_decision. Defined.

(** An element of [hc_api.devices]: a dict whose [CONF_DEVICE] entry is
    the device wrapper.  The dict has a fixed shape, so it is a record. *)
Record dev_dict := { device : HomeConnectDevice }.

#[global] Instance dev_dict_eq_dec : EqDecision dev_dict.
Proof. solve_decision. Defined.

(** [api.ConfigEntryAuth]: the account session. *)
Record ConfigEntryAuth := { devices : list dev_dict }.

#[global] Instance ConfigEntryAuth_eq_dec : EqDecision ConfigEntryAuth.
Proof. solve_decision. Defined.

Record ConfigEntry := { entry_id : string }.

(** The operations of the vendor appliance client that the module calls. *)
Inductive appliance_method :=
| execute_command
| set_setting
| set_options_active_program
| set_options_selected_program
| select_program
| start_program.

#[global] Instance appliance_method_eq_dec : EqDecision appliance_method.
Proof. solve_decision. Defined.

(** [getattr(appliance, name)] on the vendor client. *)
Definition getattr_appliance (name : string) : Result appliance_method :=
  if decide (name = "execute_command") then Ok execute_command
  else if decide (name = "set_setting") then Ok set_setting
  else if decide (name = "set_options_active_program") then Ok set_options_active_program
  else if decide (name = "set_options_selected_program") then Ok set_options_selected_program
  else if decide (name = "select_program") then Ok select_program
  else if decide (name = "start_program") then Ok start_program
  else Raise (AttributeError name).

(** A blocking call handed to [hass.async_add_executor_job]. *)
Inductive job :=
| JGetDevices (entry : string)
| JInitialize (d : HomeConnectDevice)
| JCall (a : Appliance) (m : appliance_method) (args : list arg).

#[global] Instance job_eq_dec : EqDecision job.
Proof. solve_decision. Defined.

(** ** The host: logger, services, state *)

Inductive level := DEBUG | WARNING | ERROR.

#[global] Instance level_eq_dec : EqDecision level.
Proof. solve_decision. Defined.

(** One call to [_LOGGER]: level, format string and arguments. *)
Record LogRecord := {
  levelname : level;
  msg : string;
  args : list arg;
}.

#[global] Instance LogRecord_eq_dec : EqDecision LogRecord.
Proof. solve_decision. Defined.

(** The voluptuous validators the three service schemas use. *)
Inductive validator :=
| cv_entity_id_validator      (* cv.entity_id *)
| vol_str                     (* str *)
| vol_Coerce_str              (* vol.Coerce(str) *)
| vol_Any_int_str.            (* vol.Any(int, str) *)

Inductive marker :=
| Required (key : string)
| Optional (key : string).

Definition marker_key (m : marker) : string :=
  match m with Required k | Optional k => k end.

(** A [vol.Schema] over a dict: its markers with their validators. *)
Definition Schema := list (marker * validator).

(** The callbacks [async_setup] registers.  They are closures over
    [hass]; a registered service stores the tag of its callback. *)
Inductive Handler :=
| ServiceOptionActive
| ServiceOptionSelected
| ServicePause
| ServiceResume
| ServiceSelect
| ServiceSetting
| ServiceStart.

#[global] Instance Handler_eq_dec : EqDecision Handler.
Proof. solve_decision. Defined.

Record Service := {
  service_func : Handler;
  service_schema : Schema;
}.

Record LocalOAuth2Implementation := {
  impl_domain : string;
  impl_client_id : string;
  impl_client_secret : string;
  impl_authorize_url : string;
  impl_token_url : string;
}.

(** The part of the host the module reads and writes.  [hass_data] is
    the slot [hass.data[DOMAIN]], absent until [async_setup] creates it.
    [executor_jobs] and [log_records] are the traces of the calls made to
    the executor and to the logger, oldest first.  Times are in
    microseconds, the resolution of [datetime]. *)
Record HomeAssistant := {
  hass_data : option (PyDict.t ConfigEntryAuth);
  hass_services : gmap (string * string) Service;
  oauth_implementations : list LocalOAuth2Implementation;
  executor_jobs : list job;
  log_records : list LogRecord;
  throttle : gmap string Z;
  utcnow : Z;
}.

Definition with_hass_data (d : option (PyDict.t ConfigEntryAuth)) (h : HomeAssistant) :=
  {| hass_data := d; hass_services := hass_services h;
     oauth_implementations := oauth_implementations h;
     executor_jobs := executor_jobs h; log_records := log_records h;
     throttle := throttle h; utcnow := utcnow h |}.

Definition with_hass_services (s : gmap (string * string) Service) (h : HomeAssistant) :=
  {| hass_data := hass_data h; hass_services := s;
     oauth_implementations := oauth_implementations h;
     executor_jobs := executor_jobs h; log_records := log_records h;
     throttle := throttle h; utcnow := utcnow h |}.

Definition with_oauth_implementations (l : list LocalOAuth2Implementation) (h : HomeAssistant) :=
  {| hass_data := hass_data h; hass_services := hass_services h;
     oauth_implementations := l;
     executor_jobs := executor_jobs h; log_records := log_records h;
     throttle := throttle h; utcnow := utcnow h |}.

Definition with_executor_jobs (l : list job) (h : HomeAssistant) :=
  {| hass_data := hass_data h; hass_services := hass_services h;
     oauth_implementations := oauth_implementations h;
     executor_jobs := l; log_records := log_records h;
     throttle := throttle h; utcnow := utcnow h |}.

Definition with_log_records (l : list LogRecord) (h : HomeAssistant) :=
  {| hass_data := hass_data h; hass_services := hass_services h;
     oauth_implementations := oauth_implementations h;
     executor_jobs := executor_jobs h; log_records := l;
     throttle := throttle h; utcnow := utcnow h |}.

Definition with_throttle (t : gmap string Z) (h : HomeAssistant) :=
  {| hass_data := hass_data h; hass_services := hass_services h;
     oauth_implementations := oauth_implementations h;
     executor_jobs := executor_jobs h; log_records := log_records h;
     throttle := t; utcnow := utcnow h |}.

Definition with_utcnow (t : Z) (h : HomeAssistant) :=
  {| hass_data := hass_data h; hass_services := hass_services h;
     oauth_implementations := oauth_implementations h;
     executor_jobs := executor_jobs h; log_records := log_records h;
     throttle := throttle h; utcnow := t |}.

(** ** The monad of host computations

    A coroutine of the module run to completion: it transforms the host
    state and returns a value or raises.  State changes made before a
    raise persist, as in Python. *)
Definition M (A : Type) : Type := HomeAssistant → Result A * HomeAssistant.

#[global] Instance M_ret : MRet M := λ A a h, (Ok a, h).

#[global] Instance M_bind : MBind M := λ A B f m h,
  match m h with
  | (Ok a, h') => f a h'
  | (Raise e, h') => (Raise e, h')
  end.

Definition raise {A} (e : exn) : M A := λ h, (Raise e, h).

Definition gets {A} (f : HomeAssistant → A) : M A := λ h, (Ok (f h), h).

Definition modify (f : HomeAssistant → HomeAssistant) : M unit := λ h, (Ok tt, f h).

(** [try: suite except HTTPError as err: handler(err.response.status_code)] *)
Definition try_except_HTTPError {A} (suite : M A) (handler : Z → M A) : M A := λ h,
  match suite h with
  | (Raise (HTTPError status_code), h') => handler status_code h'
  | r => r
  end.

(** [for x in l: body(x)] *)
Fixpoint for_each {A} (l : list A) (body : A → M unit) : M unit :=
  match l with
  | [] => mret tt
  | x :: l' => body x ≫= λ _, for_each l' body
  end.

(** [[await f(x) for x in l]], one after the other. *)
Fixpoint gather {A B} (f : A → M B) (l : list A) : M (list B) :=
  match l with
  | [] => mret []
  | x :: l' => y ← f x; ys ← gather f l'; mret (y :: ys)
  end.

(** [d[k]] on a payload dict. *)
Definition getitem (d : pyobj) (k : string) : M value :=
  match d !! k with
  | Some v => mret v
  | None => raise (KeyError k)
  end.

(** [d.get(k, None)] *)
Definition get_or_None (d : pyobj) (k : string) : value := default VNone (d !! k).

Definition _LOGGER_log (l : level) (fmt : string) (a : list arg) : M unit :=
  modify (λ h, with_log_records (log_records h ++ [ {| levelname := l; msg := fmt; args := a |} ]) h).

Definition _LOGGER_debug := _LOGGER_log DEBUG.
Definition _LOGGER_warning := _LOGGER_log WARNING.
Definition _LOGGER_error := _LOGGER_log ERROR.

(** A computation that leaves the registry slot as it found it,
    whether it returns or raises. *)
Definition preserves_registry {A} (m : M A) : Prop :=
  ∀ h, hass_data (m h).2 = hass_data h.

(** ** Parameters: constants, vendor cloud, host services *)

(** The names imported from [.const] and [homeassistant.const].  Their
    values are fixed by those modules; the component only relies on them
    being strings. *)
Class Const := {
  DOMAIN : string;
  ATTR_ENTITY_ID : string;
  CONF_CLIENT_ID : string;
  CONF_CLIENT_SECRET : string;
  ATTR_KEY : string;
  ATTR_OPTION_KEY : string;
  ATTR_OPTION_UNIT : string;
  ATTR_OPTION_VALUE : string;
  ATTR_PROGRAM : string;
  ATTR_UNIT : string;
  ATTR_VALUE : string;
  BSH_PAUSE : string;
  BSH_RESUME : string;
  OAUTH2_AUTHORIZE : string;
  OAUTH2_TOKEN : string;
  SERVICE_OPTION_ACTIVE : string;
  SERVICE_OPTION_SELECTED : string;
  SERVICE_PAUSE : string;
  SERVICE_RESUME : string;
  SERVICE_SELECT : string;
  SERVICE_SETTING : string;
  SERVICE_START : string;
}.

(** The vendor cloud, seen through the SDK: given the calls made so far,
    whether a blocking call returns or raises, and which appliances the
    account's device list holds when it is fetched. *)
Class Vendor := {
  sdk_reply : list job → job → Result unit;
  sdk_appliances : list job → string → list dev_dict;
}.

(** What the module consumes from the host framework: the entity-id
    validator of [config_validation] and the result of forwarding an
    entry unload to one platform. *)
Class Host := {
  cv_entity_id : value → option string;
  forward_entry_unload : string → string → Result bool;
}.

(** ** The resolver's loops *)

(** [for entity in device.entities: if entity.entity_id == entity_id:
    return device.appliance] *)
Fixpoint search_entities (dev : HomeConnectDevice) (es : list Entity) (eid : value)
  : option Appliance :=
  match es with
  | [] => None
  | entity :: es' =>
      if decide (VStr (entity_id entity) = eid) then Some (appliance dev)
      else search_entities dev es' eid
  end.

(** [for dev_dict in hc.devices: device = dev_dict[CONF_DEVICE]; ...] *)
Fixpoint search_devices (ds : list dev_dict) (eid : value) : option Appliance :=
  match ds with
  | [] => None
  | dd :: ds' =>
      match search_entities (device dd) (entities (device dd)) eid with
      | Some a => Some a
      | None => search_devices ds' eid
      end
  end.

(** [for hc in hass.data[DOMAIN].values(): ...] *)
Fixpoint search_sessions (hcs : list ConfigEntryAuth) (eid : value) : option Appliance :=
  match hcs with
  | [] => None
  | hc :: hcs' =>
      match search_devices (devices hc) eid with
      | Some a => Some a
      | None => search_sessions hcs' eid
      end
  end.

(** An entity of some device of some session carries the identifier. *)
Definition owns_entity (hcs : list ConfigEntryAuth) (eid : value) : Prop :=
  ∃ hc dd entity,
    hc ∈ hcs ∧ dd ∈ devices hc ∧ entity ∈ entities (device dd) ∧
    VStr (entity_id entity) = eid.

(** How many device-list fetches for account [entry] a trace holds. *)
Definition count_fetches (entry : string) (l : list job) : nat :=
  length (filter (λ j, j = JGetDevices entry) l).

(** [timedelta(minutes=m)] *)
Definition timedelta_minutes (m : Z) : Z := m * 60 * 1000000.

(** [call.data] of a service call. *)
Record ServiceCall := { data : pyobj }.

(** The startup configuration: per domain, a dict of strings. *)
Abbreviation ConfigType := (gmap string (gmap string string)).

Section Component.
Context {consts : Const} {vendor : Vendor} {host : Host}.

Definition SCAN_INTERVAL : Z := timedelta_minutes 1.

Definition SERVICE_SETTING_SCHEMA : Schema :=
  [ (Required ATTR_ENTITY_ID, cv_entity_id_validator);
    (Required ATTR_KEY, vol_str);
    (Required ATTR_VALUE, vol_Coerce_str) ].

Definition SERVICE_PROGRAM_SCHEMA : Schema :=
  [ (Required ATTR_ENTITY_ID, cv_entity_id_validator);
    (Required ATTR_PROGRAM, vol_str);
    (Optional ATTR_OPTION_KEY, vol_str);
    (Optional ATTR_OPTION_VALUE, vol_Any_int_str);
    (Optional ATTR_OPTION_UNIT, vol_str) ].

Definition SERVICE_COMMAND_SCHEMA : Schema :=
  [ (Required ATTR_ENTITY_ID, cv_entity_id_validator) ].

Definition PLATFORMS : list string := ["binary_sensor"; "light"; "sensor"; "switch"].

(** *** Schema validation (voluptuous) *)

Definition run_validator (v : validator) (x : value) : option value :=
  match v with
  | cv_entity_id_validator => VStr <$> cv_entity_id x
  | vol_str => match x with VStr _ => Some x | _ => None end
  | vol_Coerce_str => Some (VStr (py_str x))
  | vol_Any_int_str =>
      match x with
      | VInt _ | VBool _ | VStr _ => Some x
      | VNone => None
      end
  end.

Definition validate_field (payload : pyobj) (f : marker * validator) (acc : option pyobj)
  : option pyobj :=
  out ← acc;
  match payload !! marker_key f.1 with
  | Some x => x' ← run_validator f.2 x; Some (<[marker_key f.1 := x']> out)
  | None => match f.1 with Required _ => None | Optional _ => Some out end
  end.

(** [schema(payload)]: every key of the payload is one of the schema's,
    every required key is present, and each value is replaced by what its
    validator returns.  [None] stands for [vol.Invalid]. *)
Definition validate (s : Schema) (payload : pyobj) : option pyobj :=
  if bool_decide (dom payload ⊆ list_to_set (marker_key <$> s.*1))
  then foldr (validate_field payload) (Some ∅) s
  else None.

(** *** Host primitives *)

(** [hass.data[DOMAIN]] *)
Definition hass_data_DOMAIN : M (PyDict.t ConfigEntryAuth) := λ h,
  match hass_data h with
  | Some d => (Ok d, h)
  | None => (Raise (KeyError DOMAIN), h)
  end.

(** [await hass.async_add_executor_job(f, *args)]: the call is made, and
    what it raises is raised in the caller. *)
Definition async_add_executor_job (j : job) : M unit := λ h,
  (sdk_reply (executor_jobs h) j, with_executor_jobs (executor_jobs h ++ [j]) h).

(** [hass.services.async_register(domain, service, func, schema)] *)
Definition async_register (domain service : string) (f : Handler) (s : Schema) : M unit :=
  modify (λ h, with_hass_services
    (<[(domain, service) := {| service_func := f; service_schema := s |}]> (hass_services h)) h).

(** [OAuth2FlowHandler.async_register_implementation(hass, impl)] *)
Definition async_register_implementation (impl : LocalOAuth2Implementation) : M unit :=
  modify (λ h, with_oauth_implementations (oauth_implementations h ++ [impl]) h).

(** [hass.config_entries.async_forward_entry_unload(entry, component)] *)
Definition async_forward_entry_unload (entry : ConfigEntry) (component : string) : M bool :=
  λ h, (forward_entry_unload (entry_id entry) component, h).

(** Writing the state of the session object of account [entry] back to
    the registry slot that holds the object. *)
Definition store_session (entry : string) (hc_api : ConfigEntryAuth) (h : HomeAssistant)
  : HomeAssistant :=
  match hass_data h with
  | Some d =>
      match PyDict.get entry d with
      | Some _ => with_hass_data (Some (PyDict.set entry hc_api d)) h
      | None => h
      end
  | None => h
  end.

(** Modelled from the spec: [api.ConfigEntryAuth.get_devices] is not
    under src/.  The spec has it "re-fetch the device list for the account
    from the vendor API", the list being "replaced wholesale on each
    refresh (no incremental merge)", while "a transport failure during
    polling leaves previously cached devices unchanged".  The call runs
    as one executor job; it returns the session object as the refresh
    left it. *)
Definition get_devices (entry : string) (hc_api : ConfigEntryAuth) : M ConfigEntryAuth :=
  history ← gets executor_jobs;
  async_add_executor_job (JGetDevices entry);;
  let hc_api' := {| devices := sdk_appliances history entry |} in
  modify (store_session entry hc_api');;
  mret hc_api'.

(** Modelled from the spec: [homeassistant.util.Throttle] is not under
    src/.  The spec has the poller "rate-limited to at most one execution
    per account per fixed interval (one minute) regardless of how often
    triggered", triggers within the window being "coalesced into a
    no-op".  The time of the last execution is kept per account. *)
Definition Throttle (min_time : Z) (method : ConfigEntry → M unit) (entry : ConfigEntry)
  : M unit :=
  now ← gets utcnow;
  last ← gets (λ h, throttle h !! entry_id entry);
  let run : M unit :=
    modify (λ h, with_throttle (<[entry_id entry := now]> (throttle h)) h);;
    method entry in
  match last with
  | Some t => if bool_decide (now - t ≤ min_time) then mret tt else run
  | None => run
  end.

(** Time passing between two triggers. *)
Definition sleep (dt : Z) : M unit := modify (λ h, with_utcnow (utcnow h + dt) h).

(** *** The module's functions *)

Definition _get_appliance_by_entity_id (eid : value) : M (option Appliance) :=
  sessions ← hass_data_DOMAIN;
  match search_sessions (PyDict.values sessions) eid with
  | Some a => mret (Some a)
  | None =>
      _LOGGER_error "Appliance for %s not found." [AVal eid];;
      mret None
  end.

Definition _async_service_program (call : ServiceCall) (method : string) : M unit :=
  program ← getitem (data call) ATTR_PROGRAM;
  eid ← getitem (data call) ATTR_ENTITY_ID;
  let option_key := get_or_None (data call) ATTR_OPTION_KEY in
  let option_value := get_or_None (data call) ATTR_OPTION_VALUE in
  let option_unit := get_or_None (data call) ATTR_OPTION_UNIT in
  let options :=
    if is_not_None option_key && is_not_None option_value then
      let _options : pyobj := <[ATTR_VALUE := option_value]> (<[ATTR_KEY := option_key]> ∅) in
      let _options :=
        if is_not_None option_unit then <[ATTR_UNIT := option_unit]> _options
        else _options in
      AOptions [_options]
    else AVal VNone in
  _LOGGER_debug "Options: %s" [options];;
  appliance ← _get_appliance_by_entity_id eid;
  match appliance with
  | Some a =>
      f ← (λ h, (getattr_appliance method, h));
      async_add_executor_job (JCall a f [AVal program; options])
  | None => mret tt
  end.

Definition _async_service_command (call : ServiceCall) (command : string) : M unit :=
  eid ← getitem (data call) ATTR_ENTITY_ID;
  appliance ← _get_appliance_by_entity_id eid;
  match appliance with
  | Some a => async_add_executor_job (JCall a execute_command [AVal (VStr command)])
  | None => mret tt
  end.

Definition _async_service_key_value (call : ServiceCall) (method : string) : M unit :=
  key ← getitem (data call) ATTR_KEY;
  val ← getitem (data call) ATTR_VALUE;
  eid ← getitem (data call) ATTR_ENTITY_ID;
  appliance ← _get_appliance_by_entity_id eid;
  match appliance with
  | Some a =>
      f ← (λ h, (getattr_appliance method, h));
      async_add_executor_job (JCall a f [AVal key; AVal val])
  | None => mret tt
  end.

Definition async_service_option_active (call : ServiceCall) : M unit :=
  _async_service_key_value call "set_options_active_program".

Definition async_service_option_selected (call : ServiceCall) : M unit :=
  _async_service_key_value call "set_options_selected_program".

Definition async_service_pause (call : ServiceCall) : M unit :=
  _async_service_command call BSH_PAUSE.

Definition async_service_resume (call : ServiceCall) : M unit :=
  _async_service_command call BSH_RESUME.

Definition async_service_select (call : ServiceCall) : M unit :=
  _async_service_program call SERVICE_SELECT.

Definition async_service_setting (call : ServiceCall) : M unit :=
  _async_service_key_value call "set_setting".

Definition async_service_start (call : ServiceCall) : M unit :=
  _async_service_program call SERVICE_START.

(** Running the callback behind a handler tag. *)
Definition call_handler (f : Handler) : ServiceCall → M unit :=
  match f with
  | ServiceOptionActive => async_service_option_active
  | ServiceOptionSelected => async_service_option_selected
  | ServicePause => async_service_pause
  | ServiceResume => async_service_resume
  | ServiceSelect => async_service_select
  | ServiceSetting => async_service_setting
  | ServiceStart => async_service_start
  end.

(** The schema [async_setup] registers each callback with. *)
Definition handler_schema (f : Handler) : Schema :=
  match f with
  | ServiceOptionActive | ServiceOptionSelected | ServiceSetting => SERVICE_SETTING_SCHEMA
  | ServicePause | ServiceResume => SERVICE_COMMAND_SCHEMA
  | ServiceSelect | ServiceStart => SERVICE_PROGRAM_SCHEMA
  end.

(** [config[DOMAIN][k]] once [config[DOMAIN]] is at hand. *)
Definition conf_getitem (conf : gmap string string) (k : string) : M string :=
  match conf !! k with
  | Some v => mret v
  | None => raise (KeyError k)
  end.

Definition async_setup (config : ConfigType) : M bool :=
  modify (with_hass_data (Some []));;
  match config !! DOMAIN with
  | None => mret true
  | Some conf =>
      client_id ← conf_getitem conf CONF_CLIENT_ID;
      client_secret ← conf_getitem conf CONF_CLIENT_SECRET;
      async_register_implementation
        {| impl_domain := DOMAIN;
           impl_client_id := client_id;
           impl_client_secret := client_secret;
           impl_authorize_url := OAUTH2_AUTHORIZE;
           impl_token_url := OAUTH2_TOKEN |};;
      async_register DOMAIN SERVICE_OPTION_ACTIVE ServiceOptionActive SERVICE_SETTING_SCHEMA;;
      async_register DOMAIN SERVICE_OPTION_SELECTED ServiceOptionSelected SERVICE_SETTING_SCHEMA;;
      async_register DOMAIN SERVICE_SETTING ServiceSetting SERVICE_SETTING_SCHEMA;;
      async_register DOMAIN SERVICE_PAUSE ServicePause SERVICE_COMMAND_SCHEMA;;
      async_register DOMAIN SERVICE_RESUME ServiceResume SERVICE_COMMAND_SCHEMA;;
      async_register DOMAIN SERVICE_SELECT ServiceSelect SERVICE_PROGRAM_SCHEMA;;
      async_register DOMAIN SERVICE_START ServiceStart SERVICE_PROGRAM_SCHEMA;;
      mret true
  end.

(** [all(results)] on the gathered booleans. *)
Definition all (results : list bool) : bool := forallb id results.

Definition async_unload_entry (entry : ConfigEntry) : M bool :=
  results ← gather (async_forward_entry_unload entry) PLATFORMS;
  let unload_ok := all results in
  (if unload_ok then
     sessions ← hass_data_DOMAIN;
     match PyDict.get (entry_id entry) sessions with
     | Some _ => modify (with_hass_data (Some (PyDict.remove (entry_id entry) sessions)))
     | None => raise (KeyError (entry_id entry))
     end
   else mret tt);;
  mret unload_ok.

(** The suite of the [try] in [update_all_devices]. *)
Definition update_all_devices_try (entry : ConfigEntry) (hc_api : ConfigEntryAuth) : M unit :=
  hc_api' ← get_devices (entry_id entry) hc_api;
  for_each (devices hc_api')
    (λ device_dict, async_add_executor_job (JInitialize (device device_dict))).

(** The undecorated body of [update_all_devices]. *)
Definition update_all_devices_body (entry : ConfigEntry) : M unit :=
  sessions ← hass_data_DOMAIN;
  match PyDict.get (entry_id entry) sessions with
  | None => raise (KeyError (entry_id entry))
  | Some hc_api =>
      try_except_HTTPError
        (update_all_devices_try entry hc_api)
        (λ status_code,
           _LOGGER_warning "Cannot update devices: %s" [AVal (VInt status_code)])
  end.

(** [@Throttle(SCAN_INTERVAL) async def update_all_devices(hass, entry)] *)
Definition update_all_devices : ConfigEntry → M unit :=
  Throttle SCAN_INTERVAL update_all_devices_body.

(** The record the resolver logs when its search fails. *)
Definition not_found_record (eid : value) : LogRecord :=
  {| levelname := ERROR; msg := "Appliance for %s not found."; args := [AVal eid] |}.

(** The record the poller logs when a transport failure ends a cycle. *)
Definition cannot_update_record (status_code : Z) : LogRecord :=
  {| levelname := WARNING; msg := "Cannot update devices: %s";
     args := [AVal (VInt status_code)] |}.

End Component.

(** ** Concrete parameters for running the model on examples *)

(** Modelled from the spec: [const.py] and [homeassistant/const.py] are
    not under src/.  The option fields are named as in the spec's example
    ("key", "value", "unit"), the program services as the vendor
    operations "select_program" and "start_program" they look up by
    name; the remaining strings only have to be pairwise distinct where
    they key the same dict. *)
Definition const_py : Const := {|
  DOMAIN := "home_connect";
  ATTR_ENTITY_ID := "entity_id";
  CONF_CLIENT_ID := "client_id";
  CONF_CLIENT_SECRET := "client_secret";
  ATTR_KEY := "key";
  ATTR_OPTION_KEY := "option_key";
  ATTR_OPTION_UNIT := "option_unit";
  ATTR_OPTION_VALUE := "option_value";
  ATTR_PROGRAM := "program";
  ATTR_UNIT := "unit";
  ATTR_VALUE := "value";
  BSH_PAUSE := "BSH.Common.Command.PauseProgram";
  BSH_RESUME := "BSH.Common.Command.ResumeProgram";
  OAUTH2_AUTHORIZE := "https://api.home-connect.com/security/oauth/authorize";
  OAUTH2_TOKEN := "https://api.home-connect.com/security/oauth/token";
  SERVICE_OPTION_ACTIVE := "set_option_active";
  SERVICE_OPTION_SELECTED := "set_option_selected";
  SERVICE_PAUSE := "pause";
  SERVICE_RESUME := "resume";
  SERVICE_SELECT := "select_program";
  SERVICE_SETTING := "change_setting";
  SERVICE_START := "start_program";
|}.

(** A cloud where every call succeeds and every account owns the
    appliances in [l]. *)
Definition vendor_ok (l : list dev_dict) : Vendor := {|
  sdk_reply := λ _ _, Ok tt;
  sdk_appliances := λ _ _, l;
|}.

(** A cloud that serves the device list [l] and answers every device
    initialisation with the HTTP status [status]. *)
Definition vendor_init_fails (l : list dev_dict) (status : Z) : Vendor := {|
  sdk_reply := λ _ j, match j with JInitialize _ => Raise (HTTPError status) | _ => Ok tt end;
  sdk_appliances := λ _ _, l;
|}.

(** A cloud whose device-list fetch fails with the HTTP status [status]. *)
Definition vendor_fetch_fails (status : Z) : Vendor := {|
  sdk_reply := λ _ j, match j with JGetDevices _ => Raise (HTTPError status) | _ => Ok tt end;
  sdk_appliances := λ _ _, [];
|}.

(** A host that accepts every string as an entity id and whose platform
    teardowns report [ok component]. *)
Definition host_of (ok : string → bool) : Host := {|
  cv_entity_id := λ v, match v with VStr s => Some s | _ => None end;
  forward_entry_unload := λ _ component, Ok (ok component);
|}.

Definition dishwasher : HomeConnectDevice := {|
  appliance := {| haId := "BOSCH-SMV-01" |};
  entities := [ {| entity_id := "switch.dishwasher_power" |};
                {| entity_id := "sensor.dishwasher_door" |} ];
|}.

Definition oven : HomeConnectDevice := {|
  appliance := {| haId := "SIEMENS-HB-02" |};
  entities := [ {| entity_id := "switch.oven_power" |} ];
|}.

(** A host after [async_setup], at time 0. *)
Definition hass0 (sessions : PyDict.t ConfigEntryAuth) : HomeAssistant := {|
  hass_data := Some sessions;
  hass_services := ∅;
  oauth_implementations := [];
  executor_jobs := [];
  log_records := [];
  throttle := ∅;
  utcnow := 0;
|}.

Definition one_account : PyDict.t ConfigEntryAuth :=
  [ ("entry-1", {| devices := [ {| device := dishwasher |} ] |}) ].

Definition two_accounts : PyDict.t ConfigEntryAuth :=
  [ ("entry-1", {| devices := [ {| device := dishwasher |} ] |});
    ("entry-2", {| devices := [ {| device := oven |} ] |}) ].

(** The request of the spec's example: start a program with the
    option Temperature = 60 C. *)
Definition start_with_unit : ServiceCall := {|
  data := {[ "entity_id" := VStr "switch.dishwasher_power";
             "program" := VStr "Dishcare.Dishwasher.Program.Eco50";
             "option_key" := VStr "Temperature";
             "option_value" := VInt 60;
             "option_unit" := VStr "C" ]};
|}.

Definition start_without_unit : ServiceCall := {|
  data := {[ "entity_id" := VStr "switch.dishwasher_power";
             "program" := VStr "Dishcare.Dishwasher.Program.Eco50";
             "option_key" := VStr "Temperature";
             "option_value" := VInt 60 ]};
|}.

Definition start_without_options : ServiceCall := {|
  data := {[ "entity_id" := VStr "switch.dishwasher_power";
             "program" := VStr "Dishcare.Dishwasher.Program.Eco50" ]};
|}.

(** A change-setting request with a string value, and one with a number. *)
Definition setting_payload_str : pyobj :=
  {[ "entity_id" := VStr "switch.dishwasher_power";
     "key" := VStr "BSH.Common.Setting.PowerState";
     "value" := VStr "BSH.Common.EnumType.PowerState.On" ]}.

Definition setting_payload_int : pyobj :=
  {[ "entity_id" := VStr "switch.dishwasher_power";
     "key" := VStr "Cooking.Common.Setting.LightingBrightness";
     "value" := VInt 60 ]}.

(** A pause request for an entity no account knows. *)
Definition pause_unknown_payload : pyobj := {[ "entity_id" := VStr "switch.unknown" ]}.

Definition pause_dishwasher : ServiceCall :=
  {| data := {[ "entity_id" := VStr "switch.dishwasher_power" ]} |}.

Definition entry1 : ConfigEntry := {| entry_id := "entry-1" |}.
Definition entry2 : ConfigEntry := {| entry_id := "entry-2" |}.

(** ** Account setup

    [async_setup_entry] also creates tasks on the host's event loop, one
    per platform.  The tasks are kept beside the host state. *)

(** [hass.config_entries.async_forward_entry_setup(entry, component)],
    handed to [hass.async_create_task]. *)
Record SetupTask := {
  task_entry : string;
  task_component : string;
}.

#[global] Instance SetupTask_eq_dec : EqDecision SetupTask.
Proof. solve_decision. Defined.

Record Loop := {
  loop_hass : HomeAssistant;
  loop_tasks : list SetupTask;
}.

(** Computations that may also create tasks. *)
Definition ML (A : Type) : Type := Loop → Result A * Loop.

#[global] Instance ML_ret : MRet ML := λ A a l, (Ok a, l).

#[global] Instance ML_bind : MBind ML := λ A B f m l,
  match m l with
  | (Ok a, l') => f a l'
  | (Raise e, l') => (Raise e, l')
  end.

(** A host computation run inside a task-creating one. *)
Definition on_hass {A} (m : M A) : ML A := λ l,
  let r := m (loop_hass l) in
  (r.1, {| loop_hass := r.2; loop_tasks := loop_tasks l |}).

(** [hass.async_create_task(coro)] *)
Definition async_create_task (t : SetupTask) : ML unit := λ l,
  (Ok tt, {| loop_hass := loop_hass l; loop_tasks := loop_tasks l ++ [t] |}).

(** [for x in l: body(x)] *)
Fixpoint ML_for_each {A} (l : list A) (body : A → ML unit) : ML unit :=
  match l with
  | [] => mret tt
  | x :: l' => body x ≫= λ _, ML_for_each l' body
  end.

(** What account setup consumes from modules that are not part of this
    file: the host's lookup of the entry's OAuth implementation, which
    reads the host and may raise, and the constructor of the session
    object of [api.py]. *)
Class Accounts := {
  async_get_config_entry_implementation :
    HomeAssistant → ConfigEntry → Result LocalOAuth2Implementation;
  new_ConfigEntryAuth : ConfigEntry → LocalOAuth2Implementation → ConfigEntryAuth;
}.

Section Lifecycle.
Context {consts : Const} {vendor : Vendor} {accounts : Accounts}.

(** [hass.data[DOMAIN][entry.entry_id] = hc_api] *)
Definition register_session (entry : ConfigEntry) (hc_api : ConfigEntryAuth) : M unit :=
  sessions ← hass_data_DOMAIN;
  modify (with_hass_data (Some (PyDict.set (entry_id entry) hc_api sessions))).

Definition async_setup_entry (entry : ConfigEntry) : ML bool :=
  implementation ← (λ l, (async_get_config_entry_implementation (loop_hass l) entry, l));
  let hc_api := new_ConfigEntryAuth entry implementation in
  on_hass (register_session entry hc_api);;
  on_hass (update_all_devices entry);;
  ML_for_each PLATFORMS
    (λ component,
       async_create_task {| task_entry := entry_id entry; task_component := component |});;
  mret true.

End Lifecycle.

Section Services.
Context {consts : Const}.

(** The name [async_setup] registers each callback under. *)
Definition service_name (f : Handler) : string :=
  match f with
  | ServiceOptionActive => SERVICE_OPTION_ACTIVE
  | ServiceOptionSelected => SERVICE_OPTION_SELECTED
  | ServicePause => SERVICE_PAUSE
  | ServiceResume => SERVICE_RESUME
  | ServiceSelect => SERVICE_SELECT
  | ServiceSetting => SERVICE_SETTING
  | ServiceStart => SERVICE_START
  end.

Definition all_handlers : list Handler :=
  [ ServiceOptionActive; ServiceOptionSelected; ServiceSetting;
    ServicePause; ServiceResume; ServiceSelect; ServiceStart ].

(** The options bundle a program service builds from its payload. *)
Definition options_record (options : arg) : LogRecord :=
  {| levelname := DEBUG; msg := "Options: %s"; args := [options] |}.

End Services.

(** An entity of a device at [dd] carries the identifier. *)
Definition device_owns (dd : dev_dict) (eid : value) : Prop :=
  ∃ entity, entity ∈ entities (device dd) ∧ VStr (entity_id entity) = eid.

(** Every failure of the vendor cloud is a transport failure. *)
Definition only_transport_failures {vendor : Vendor} : Prop :=
  ∀ history j e, sdk_reply history j = Raise e → ∃ status, e = HTTPError status.

(** An account host whose implementation lookup succeeds and whose new
    sessions start without devices. *)
Definition accounts_ok : Accounts := {|
  async_get_config_entry_implementation := λ _ _,
    Ok {| impl_domain := "home_connect"; impl_client_id := "id";
          impl_client_secret := "secret";
          impl_authorize_url := "https://api.home-connect.com/security/oauth/authorize";
          impl_token_url := "https://api.home-connect.com/security/oauth/token" |};
  new_ConfigEntryAuth := λ _ _, {| devices := [] |};
|}.

(** A cloud that serves the device list [l] and whose device
    initialisations fail with the SDK's own error. *)
Definition vendor_init_raises (l : list dev_dict) : Vendor := {|
  sdk_reply := λ _ j, match j with JInitialize _ => Raise HomeConnectError | _ => Ok tt end;
  sdk_appliances := λ _ _, l;
|}.

(** A cloud that serves [l] and fails, with status 503, the
    initialisation of the appliance [bad] only. *)
Definition vendor_one_init_fails (l : list dev_dict) (bad : string) : Vendor := {|
  sdk_reply := λ _ j,
    match j with
    | JInitialize d =>
        if decide (haId (appliance d) = bad) then Raise (HTTPError 503) else Ok tt
    | _ => Ok tt
    end;
  sdk_appliances := λ _ _, l;
|}.

Definition loop0 (sessions : PyDict.t ConfigEntryAuth) : Loop :=
  {| loop_hass := hass0 sessions; loop_tasks := [] |}.

(** A startup configuration with the module's credentials. *)
Definition configured : ConfigType :=
  {[ "home_connect" := {[ "client_id" := "id"; "client_secret" := "secret" ]} ]}.

(** A startup configuration that names the module without a secret. *)
Definition misconfigured : ConfigType :=
  {[ "home_connect" := {[ "client_id" := "id" ]} ]}.

(** Constants under which select and start are registered by short
    names that are no methods of the vendor handle. *)
Definition const_short_names : Const := {|
  DOMAIN := "home_connect";
  ATTR_ENTITY_ID := "entity_id";
  CONF_CLIENT_ID := "client_id";
  CONF_CLIENT_SECRET := "client_secret";
  ATTR_KEY := "key";
  ATTR_OPTION_KEY := "option_key";
  ATTR_OPTION_UNIT := "option_unit";
  ATTR_OPTION_VALUE := "option_value";
  ATTR_PROGRAM := "program";
  ATTR_UNIT := "unit";
  ATTR_VALUE := "value";
  BSH_PAUSE := "BSH.Common.Command.PauseProgram";
  BSH_RESUME := "BSH.Common.Command.ResumeProgram";
  OAUTH2_AUTHORIZE := "https://api.home-connect.com/security/oauth/authorize";
  OAUTH2_TOKEN := "https://api.home-connect.com/security/oauth/token";
  SERVICE_OPTION_ACTIVE := "set_option_active";
  SERVICE_OPTION_SELECTED := "set_option_selected";
  SERVICE_PAUSE := "pause";
  SERVICE_RESUME := "resume";
  SERVICE_SELECT := "select";
  SERVICE_SETTING := "change_setting";
  SERVICE_START := "start";
|}.

(** A cloud whose device-list fetch fails with the SDK's own error. *)
Definition vendor_fetch_raises : Vendor := {|
  sdk_reply := λ _ j, match j with JGetDevices _ => Raise HomeConnectError | _ => Ok tt end;
  sdk_appliances := λ _ _, [];
|}.

(** An account host that has no OAuth implementation for the entry. *)
Definition accounts_unavailable : Accounts := {|
  async_get_config_entry_implementation := λ _ _, Raise (KeyError "auth_implementation");
  new_ConfigEntryAuth := λ _ _, {| devices := [] |};
|}.

Definition washer : HomeConnectDevice := {|
  appliance := {| haId := "BOSCH-WAX-03" |};
  entities := [ {| entity_id := "switch.washer_power" |} ];
|}.

(** A second wrapper that claims the dishwasher's power switch. *)
Definition impostor : HomeConnectDevice := {|
  appliance := {| haId := "BOSCH-SMV-99" |};
  entities := [ {| entity_id := "switch.dishwasher_power" |} ];
|}.

Definition clashing_accounts : PyDict.t ConfigEntryAuth :=
  [ ("entry-1", {| devices := [ {| device := oven |}; {| device := dishwasher |} ] |});
    ("entry-2", {| devices := [ {| device := impostor |} ] |}) ].

Definition three_devices : list dev_dict :=
  [ {| device := dishwasher |}; {| device := oven |}; {| device := washer |} ].

Definition entry9 : ConfigEntry := {| entry_id := "entry-9" |}.

(** * Properties *)

(** ** Facts about insertion-ordered dictionaries *)

Module PyDictFacts.
Import PyDict.
Section Facts.
Context {V : Type}.
Implicit Types (d : PyDict.t V) (k : string) (v : V).

Lemma get_set_eq k v d : get k (set k v d) = Some v.
Proof.
  induction d as [|[k' v'] d IH]; simpl.
  - by rewrite decide_True.
  - destruct (decide (k' = k)) as [->|Hne]; simpl.
    + by rewrite decide_True.
    + by rewrite decide_False.
Qed.

Lemma get_set_ne k k' v d : k ≠ k' → get k' (set k v d) = get k' d.
Proof.
  intros Hne. induction d as [|[k0 v0] d IH]; simpl.
  - by rewrite decide_False.
  - destruct (decide (k0 = k)) as [->|Hne0]; simpl.
    + by rewrite !decide_False.
    + by rewrite IH.
Qed.

Lemma get_remove_ne k k' d : k ≠ k' → get k' (remove k d) = get k' d.
Proof.
  intros Hne. induction d as [|[k0 v0] d IH]; simpl; [done|].
  destruct (decide (k0 = k)) as [->|Hne0]; simpl.
  - by rewrite decide_False.
  - by rewrite IH.
Qed.

Lemma get_None_keys k d : get k d = None ↔ k ∉ keys d.
Proof.
  induction d as [|[k0 v0] d IH]; simpl.
  - split; [intros _; apply not_elem_of_nil | done].
  - destruct (decide (k0 = k)) as [->|Hne0].
    + split; [done | intros []; left].
    + rewrite IH. unfold keys. simpl. rewrite not_elem_of_cons. split; [by split | by intros []].
Qed.

(** With unique keys, as every Python dict has, popping a key leaves no
    entry under it. *)
Lemma get_remove_eq k d : NoDup (keys d) → get k (remove k d) = None.
Proof.
  induction d as [|[k0 v0] d IH]; simpl; [done|].
  unfold keys; simpl. rewrite NoDup_cons. intros [Hnotin Hnd].
  destruct (decide (k0 = k)) as [->|Hne0]; simpl.
  - by apply get_None_keys.
  - rewrite decide_False by done. by apply IH.
Qed.

Lemma get_Some_values k v d : get k d = Some v → v ∈ values d.
Proof.
  induction d as [|[k0 v0] d IH]; simpl; [done|].
  unfold values; simpl.
  destruct (decide (k0 = k)); [intros [= ->]; left | intros; right; by apply IH].
Qed.
End Facts.
End PyDictFacts.

Section Properties.
Context {consts : Const} {vendor : Vendor} {host : Host}.

(** ** Running computations *)

Lemma bind_Ok {A B} (m : M A) (f : A → M B) h a h' :
  m h = (Ok a, h') → (m ≫= f) h = f a h'.
Proof. intros Hm. unfold mbind, M_bind. by rewrite Hm. Qed.

Lemma bind_Raise {A B} (m : M A) (f : A → M B) h e h' :
  m h = (Raise e, h') → (m ≫= f) h = (Raise e, h').
Proof. intros Hm. unfold mbind, M_bind. by rewrite Hm. Qed.

Lemma getitem_Some (d : pyobj) k v h : d !! k = Some v → getitem d k h = (Ok v, h).
Proof. intros Hk. unfold getitem. by rewrite Hk. Qed.

Lemma hass_data_DOMAIN_Some h sessions :
  hass_data h = Some sessions → hass_data_DOMAIN h = (Ok sessions, h).
Proof. intros Hd. unfold hass_data_DOMAIN. by rewrite Hd. Qed.

(** ** The resolver *)

Lemma search_entities_None dev es eid :
  search_entities dev es eid = None ↔ ∀ entity, entity ∈ es → VStr (entity_id entity) ≠ eid.
Proof.
  induction es as [|e es IH]; simpl.
  - split; [intros _ x Hx; by apply elem_of_nil in Hx | done].
  - destruct (decide (VStr (entity_id e) = eid)) as [Heq|Hne].
    + split; [done|]. intros Hall. exfalso. apply (Hall e); [left | done].
    + rewrite IH. split.
      * intros Hall x Hx. apply elem_of_cons in Hx as [->|Hx]; [done | by apply Hall].
      * intros Hall x Hx. apply Hall. by right.
Qed.

Lemma search_entities_Some dev es eid a :
  search_entities dev es eid = Some a →
  a = appliance dev ∧ ∃ entity, entity ∈ es ∧ VStr (entity_id entity) = eid.
Proof.
  induction es as [|e es IH]; simpl; [done|].
  destruct (decide (VStr (entity_id e) = eid)) as [Heq|Hne].
  - intros [= <-]. split; [done|]. exists e. split; [left | done].
  - intros Hs. destruct (IH Hs) as [-> (x & Hx & Heq)].
    split; [done|]. exists x. split; [by right | done].
Qed.

Lemma search_devices_None ds eid :
  search_devices ds eid = None ↔
  ∀ dd entity, dd ∈ ds → entity ∈ entities (device dd) → VStr (entity_id entity) ≠ eid.
Proof.
  induction ds as [|d ds IH]; simpl.
  - split; [intros _ x y Hx; by apply elem_of_nil in Hx | done].
  - destruct (search_entities _ _ _) as [a|] eqn:Hse.
    + split; [done|]. intros Hall. exfalso.
      apply search_entities_Some in Hse as [_ (x & Hx & Heq)].
      apply (Hall d x); [left | done | done].
    + rewrite IH. rewrite search_entities_None in Hse. split.
      * intros Hall dd x Hdd Hx.
        apply elem_of_cons in Hdd as [->|Hdd]; [by apply Hse | by apply (Hall dd)].
      * intros Hall dd x Hdd Hx. apply (Hall dd); [by right | done].
Qed.

Lemma search_devices_Some ds eid a :
  search_devices ds eid = Some a →
  ∃ dd entity, dd ∈ ds ∧ a = appliance (device dd) ∧
    entity ∈ entities (device dd) ∧ VStr (entity_id entity) = eid.
Proof.
  induction ds as [|d ds IH]; simpl; [done|].
  destruct (search_entities _ _ _) as [a'|] eqn:Hse.
  - intros [= <-]. apply search_entities_Some in Hse as [-> (x & Hx & Heq)].
    exists d, x. split; [left | done].
  - intros Hs. destruct (IH Hs) as (dd & x & Hdd & Ha & Hx & Heq).
    exists dd, x. split; [by right | done].
Qed.

(** The search fails exactly when no entity of any session carries the
    identifier. *)
Lemma search_sessions_None hcs eid :
  search_sessions hcs eid = None ↔ ¬ owns_entity hcs eid.
Proof.
  unfold owns_entity. induction hcs as [|hc hcs IH]; simpl.
  - split; [|done]. intros _ (x & _ & _ & Hx & _). by apply elem_of_nil in Hx.
  - destruct (search_devices _ _) as [a|] eqn:Hsd.
    + split; [done|]. intros Hnot. exfalso. apply Hnot.
      apply search_devices_Some in Hsd as (dd & x & Hdd & _ & Hx & Heq).
      exists hc, dd, x. split; [left | done].
    + rewrite IH. rewrite search_devices_None in Hsd. split.
      * intros Hnot (hc' & dd & x & Hhc & Hdd & Hx & Heq).
        apply elem_of_cons in Hhc as [->|Hhc].
        -- by apply (Hsd dd x).
        -- apply Hnot. by exists hc', dd, x.
      * intros Hnot (hc' & dd & x & Hhc & Hdd & Hx & Heq).
        apply Hnot. exists hc', dd, x. split; [by right | done].
Qed.

(** A found appliance is the handle of a device one of whose entities
    carries the identifier. *)
Lemma search_sessions_Some hcs eid a :
  search_sessions hcs eid = Some a →
  ∃ hc dd entity, hc ∈ hcs ∧ dd ∈ devices hc ∧ a = appliance (device dd) ∧
    entity ∈ entities (device dd) ∧ VStr (entity_id entity) = eid.
Proof.
  induction hcs as [|hc hcs IH]; simpl; [done|].
  destruct (search_devices _ _) as [a'|] eqn:Hsd.
  - intros [= <-]. apply search_devices_Some in Hsd as (dd & x & Hdd & Ha & Hx & Heq).
    exists hc, dd, x. split; [left | done].
  - intros Hs. destruct (IH Hs) as (hc' & dd & x & Hhc & Hrest).
    exists hc', dd, x. split; [by right | done].
Qed.

Lemma _get_appliance_by_entity_id_found h sessions eid a :
  hass_data h = Some sessions →
  search_sessions (PyDict.values sessions) eid = Some a →
  _get_appliance_by_entity_id eid h = (Ok (Some a), h).
Proof.
  intros Hd Hs. unfold _get_appliance_by_entity_id.
  rewrite (bind_Ok _ _ _ _ _ (hass_data_DOMAIN_Some _ _ Hd)). by rewrite Hs.
Qed.

Lemma _get_appliance_by_entity_id_not_found h sessions eid :
  hass_data h = Some sessions →
  ¬ owns_entity (PyDict.values sessions) eid →
  _get_appliance_by_entity_id eid h =
    (Ok None,
     with_log_records
       (log_records h ++
        [ {| levelname := ERROR; msg := "Appliance for %s not found."; args := [AVal eid] |} ])
       h).
Proof.
  intros Hd Hs. apply search_sessions_None in Hs. unfold _get_appliance_by_entity_id.
  rewrite (bind_Ok _ _ _ _ _ (hass_data_DOMAIN_Some _ _ Hd)). by rewrite Hs.
Qed.

(** ** Schema validation *)

Lemma validate_field_inv payload f acc d :
  validate_field payload f acc = Some d →
  ∃ out, acc = Some out ∧
    (∀ k, is_Some (out !! k) → is_Some (d !! k)) ∧
    (∀ k, f.1 = Required k → is_Some (d !! k)).
Proof.
  unfold validate_field. destruct acc as [out|]; simpl; [|done].
  intros Hf. exists out. split; [done|].
  destruct (payload !! marker_key f.1) as [x|] eqn:Hx.
  - destruct (run_validator f.2 x) as [x'|]; simpl in Hf; [|done].
    injection Hf as <-. split.
    + intros k Hk. destruct (decide (marker_key f.1 = k)) as [->|Hne].
      * rewrite lookup_insert_eq. by eexists.
      * by rewrite lookup_insert_ne.
    + intros k Hreq. rewrite Hreq. simpl. rewrite lookup_insert_eq. by eexists.
  - destruct f.1 as [k'|k']; [done|]. injection Hf as <-. split; [done | done].
Qed.

(** A payload that passes a schema holds all its required keys. *)
Lemma validate_required s payload d k v :
  validate s payload = Some d → (Required k, v) ∈ s → is_Some (d !! k).
Proof.
  unfold validate. case_bool_decide; [|done]. clear.
  revert d. induction s as [|f s IH]; simpl; intros d Hd Hin.
  - by apply elem_of_nil in Hin.
  - apply validate_field_inv in Hd as (out & Hout & Hmono & Hreq).
    apply elem_of_cons in Hin as [<-|Hin].
    + by apply Hreq.
    + apply Hmono. by apply IH.
Qed.

(** ** Dispatch *)

Lemma _async_service_command_not_found call command h sessions eid :
  hass_data h = Some sessions →
  data call !! ATTR_ENTITY_ID = Some eid →
  ¬ owns_entity (PyDict.values sessions) eid →
  _async_service_command call command h =
    (Ok tt, with_log_records (log_records h ++ [not_found_record eid]) h).
Proof.
  intros Hd He Hno. unfold _async_service_command.
  rewrite (bind_Ok _ _ _ _ _ (getitem_Some _ _ _ _ He)).
  by rewrite (bind_Ok _ _ _ _ _ (_get_appliance_by_entity_id_not_found _ _ _ Hd Hno)).
Qed.

Lemma _async_service_key_value_not_found call method h sessions eid :
  hass_data h = Some sessions →
  is_Some (data call !! ATTR_KEY) →
  is_Some (data call !! ATTR_VALUE) →
  data call !! ATTR_ENTITY_ID = Some eid →
  ¬ owns_entity (PyDict.values sessions) eid →
  _async_service_key_value call method h =
    (Ok tt, with_log_records (log_records h ++ [not_found_record eid]) h).
Proof.
  intros Hd [k Hk] [v Hv] He Hno. unfold _async_service_key_value.
  rewrite (bind_Ok _ _ _ _ _ (getitem_Some _ _ _ _ Hk)).
  rewrite (bind_Ok _ _ _ _ _ (getitem_Some _ _ _ _ Hv)).
  rewrite (bind_Ok _ _ _ _ _ (getitem_Some _ _ _ _ He)).
  by rewrite (bind_Ok _ _ _ _ _ (_get_appliance_by_entity_id_not_found _ _ _ Hd Hno)).
Qed.

Lemma _async_service_program_not_found call method h sessions eid :
  hass_data h = Some sessions →
  is_Some (data call !! ATTR_PROGRAM) →
  data call !! ATTR_ENTITY_ID = Some eid →
  ¬ owns_entity (PyDict.values sessions) eid →
  ∃ debug,
    levelname debug = DEBUG ∧
    _async_service_program call method h =
      (Ok tt, with_log_records (log_records h ++ [debug; not_found_record eid]) h).
Proof.
  intros Hd [p Hp] He Hno. unfold _async_service_program.
  rewrite (bind_Ok _ _ _ _ _ (getitem_Some _ _ _ _ Hp)).
  rewrite (bind_Ok _ _ _ _ _ (getitem_Some _ _ _ _ He)).
  eexists. split; [|erewrite bind_Ok; [|reflexivity]].
  2: { erewrite bind_Ok.
       2: { eapply _get_appliance_by_entity_id_not_found; [exact Hd | exact Hno]. }
       simpl. unfold mret, M_ret. rewrite <- app_assoc. reflexivity. }
  done.
Qed.

(** C2: a request of any action kind, accepted by its schema, whose
    entity identifier is carried by no entity of any registered session:
    the resolver returns no target, the callback returns normally, no
    executor job is scheduled, and the only trace is the log, which ends
    with the resolver's error record. *)
Theorem dispatch_unknown_entity_skips f payload d eid h sessions :
  validate (handler_schema f) payload = Some d →
  hass_data h = Some sessions →
  d !! ATTR_ENTITY_ID = Some eid →
  ¬ owns_entity (PyDict.values sessions) eid →
  (_get_appliance_by_entity_id eid h).1 = Ok None ∧
  executor_jobs (call_handler f {| data := d |} h).2 = executor_jobs h ∧
  ∃ debug,
    Forall (λ r, levelname r = DEBUG) debug ∧
    call_handler f {| data := d |} h =
      (Ok tt, with_log_records (log_records h ++ debug ++ [not_found_record eid]) h).
Proof.
  intros Hv Hd He Hno.
  split; [by rewrite (_get_appliance_by_entity_id_not_found _ _ _ Hd Hno)|].
  assert (∃ debug,
    Forall (λ r, levelname r = DEBUG) debug ∧
    call_handler f {| data := d |} h =
      (Ok tt, with_log_records (log_records h ++ debug ++ [not_found_record eid]) h))
    as (debug & Hdebug & Hrun).
  { assert (∀ method, validate SERVICE_SETTING_SCHEMA payload = Some d →
      _async_service_key_value {| data := d |} method h =
        (Ok tt, with_log_records (log_records h ++ [] ++ [not_found_record eid]) h))
      as Hkv.
    { intros method Hs.
      apply (_async_service_key_value_not_found _ _ _ sessions); simpl; try done.
      - apply (validate_required _ _ _ _ vol_str Hs).
        apply list_elem_of_further, list_elem_of_here.
      - apply (validate_required _ _ _ _ vol_Coerce_str Hs).
        do 2 apply list_elem_of_further. apply list_elem_of_here. }
    assert (∀ command,
      _async_service_command {| data := d |} command h =
        (Ok tt, with_log_records (log_records h ++ [] ++ [not_found_record eid]) h))
      as Hcmd.
    { intros command. by apply (_async_service_command_not_found _ _ _ sessions). }
    assert (∀ method, validate SERVICE_PROGRAM_SCHEMA payload = Some d →
      ∃ debug, Forall (λ r, levelname r = DEBUG) debug ∧
      _async_service_program {| data := d |} method h =
        (Ok tt, with_log_records (log_records h ++ debug ++ [not_found_record eid]) h))
      as Hprog.
    { intros method Hs.
      destruct (_async_service_program_not_found {| data := d |} method h sessions eid)
        as (r & Hr & Hrun); simpl; try done.
      - apply (validate_required _ _ _ _ vol_str Hs).
        apply list_elem_of_further, list_elem_of_here.
      - exists [r]. split; [by repeat constructor | exact Hrun]. }
    destruct f; simpl in Hv; unfold call_handler.
    - exists []. split; [constructor | by apply Hkv].
    - exists []. split; [constructor | by apply Hkv].
    - exists []. split; [constructor | by apply Hcmd].
    - exists []. split; [constructor | by apply Hcmd].
    - by apply Hprog.
    - exists []. split; [constructor | by apply Hkv].
    - by apply Hprog. }
  split; [by rewrite Hrun | by exists debug].
Qed.

Lemma getattr_run {A} (r : Result A) (f : A → M unit) h a :
  r = Ok a → ((λ h, (r, h)) ≫= f) h = f a h.
Proof. intros ->. done. Qed.

Lemma _async_service_command_found call command h sessions eid a :
  hass_data h = Some sessions →
  data call !! ATTR_ENTITY_ID = Some eid →
  search_sessions (PyDict.values sessions) eid = Some a →
  _async_service_command call command h =
    async_add_executor_job (JCall a execute_command [AVal (VStr command)]) h.
Proof.
  intros Hd He Hs. unfold _async_service_command.
  rewrite (bind_Ok _ _ _ _ _ (getitem_Some _ _ _ _ He)).
  by rewrite (bind_Ok _ _ _ _ _ (_get_appliance_by_entity_id_found _ _ _ _ Hd Hs)).
Qed.

Lemma _async_service_key_value_found call method m h sessions k v eid a :
  hass_data h = Some sessions →
  data call !! ATTR_KEY = Some k →
  data call !! ATTR_VALUE = Some v →
  data call !! ATTR_ENTITY_ID = Some eid →
  search_sessions (PyDict.values sessions) eid = Some a →
  getattr_appliance method = Ok m →
  _async_service_key_value call method h =
    async_add_executor_job (JCall a m [AVal k; AVal v]) h.
Proof.
  intros Hd Hk Hv He Hs Hm. unfold _async_service_key_value.
  rewrite (bind_Ok _ _ _ _ _ (getitem_Some _ _ _ _ Hk)).
  rewrite (bind_Ok _ _ _ _ _ (getitem_Some _ _ _ _ Hv)).
  rewrite (bind_Ok _ _ _ _ _ (getitem_Some _ _ _ _ He)).
  rewrite (bind_Ok _ _ _ _ _ (_get_appliance_by_entity_id_found _ _ _ _ Hd Hs)).
  by rewrite (getattr_run _ _ _ _ Hm).
Qed.

(** C8: a pause or resume request whose entity resolves to appliance
    [a] runs as exactly one executor job, the call of [a]'s
    [execute_command] with the pause (resume) verb as its only argument;
    nothing else of the host changes. *)
Theorem pause_resume_execute_command call h sessions eid a :
  hass_data h = Some sessions →
  data call !! ATTR_ENTITY_ID = Some eid →
  search_sessions (PyDict.values sessions) eid = Some a →
  let pause := JCall a execute_command [AVal (VStr BSH_PAUSE)] in
  let resume := JCall a execute_command [AVal (VStr BSH_RESUME)] in
  async_service_pause call h =
    (sdk_reply (executor_jobs h) pause, with_executor_jobs (executor_jobs h ++ [pause]) h) ∧
  async_service_resume call h =
    (sdk_reply (executor_jobs h) resume, with_executor_jobs (executor_jobs h ++ [resume]) h).
Proof.
  intros Hd He Hs. simpl. unfold async_service_pause, async_service_resume.
  by rewrite !(_async_service_command_found _ _ _ _ _ _ Hd He Hs).
Qed.

(** *** Dispatch leaves the registry alone *)

Lemma preserves_registry_ret {A} (a : A) : preserves_registry (mret a).
Proof. by intros h. Qed.

Lemma preserves_registry_raise {A} e : preserves_registry (@raise A e).
Proof. by intros h. Qed.

Lemma preserves_registry_bind {A B} (m : M A) (f : A → M B) :
  preserves_registry m → (∀ a, preserves_registry (f a)) → preserves_registry (m ≫= f).
Proof.
  intros Hm Hf h. unfold mbind, M_bind. specialize (Hm h).
  destruct (m h) as [[a|e] h']; simpl in *; [|done].
  by rewrite (Hf a h').
Qed.

Lemma preserves_registry_getitem d k : preserves_registry (getitem d k).
Proof. intros h. unfold getitem. by destruct (d !! k). Qed.

Lemma preserves_registry_log l fmt a : preserves_registry (_LOGGER_log l fmt a).
Proof. by intros h. Qed.

Lemma preserves_registry_executor j : preserves_registry (async_add_executor_job j).
Proof. by intros h. Qed.

Lemma preserves_registry_const {A} (r : Result A) : preserves_registry (λ h, (r, h)).
Proof. by intros h. Qed.

Lemma preserves_registry_hass_data_DOMAIN : preserves_registry hass_data_DOMAIN.
Proof. intros h. unfold hass_data_DOMAIN. by destruct (hass_data h) eqn:Hd. Qed.

Lemma preserves_registry_resolver eid : preserves_registry (_get_appliance_by_entity_id eid).
Proof.
  unfold _get_appliance_by_entity_id, _LOGGER_error.
  apply preserves_registry_bind; [apply preserves_registry_hass_data_DOMAIN|].
  intros sessions. destruct (search_sessions _ _).
  - apply preserves_registry_ret.
  - apply preserves_registry_bind; [apply preserves_registry_log|].
    intros _. apply preserves_registry_ret.
Qed.

Create HintDb registry.

#[local] Hint Resolve preserves_registry_ret preserves_registry_raise
  preserves_registry_getitem preserves_registry_log preserves_registry_executor
  preserves_registry_const preserves_registry_resolver : registry.

Ltac preserves_registry_step :=
  first
    [ solve [auto with registry]
    | match goal with |- preserves_registry (match ?x with _ => _ end) => destruct x end
    | apply preserves_registry_bind; [|intros ?] ].

Lemma preserves_registry_command call command :
  preserves_registry (_async_service_command call command).
Proof. unfold _async_service_command. repeat preserves_registry_step. Qed.

Lemma preserves_registry_key_value call method :
  preserves_registry (_async_service_key_value call method).
Proof. unfold _async_service_key_value. repeat preserves_registry_step. Qed.

Lemma preserves_registry_program call method :
  preserves_registry (_async_service_program call method).
Proof.
  unfold _async_service_program, _LOGGER_debug. repeat preserves_registry_step.
Qed.

(** C9: whatever the action kind and the request, whether the entity
    resolves or not and whether the vendor call returns or raises, the
    registry slot, that is, the session map with every session's device
    list, is the same after the dispatch as before. *)
Theorem dispatch_preserves_registry f call h :
  hass_data (call_handler f call h).2 = hass_data h.
Proof.
  destruct f; simpl;
    first [ apply preserves_registry_key_value
          | apply preserves_registry_command
          | apply preserves_registry_program ].
Qed.

(** *** Key-value services *)

(** What [SERVICE_SETTING_SCHEMA] hands to the callback: the key as it
    was given, a string, and the value turned into a string. *)
Lemma validate_SERVICE_SETTING_SCHEMA payload d k v :
  ATTR_ENTITY_ID ≠ ATTR_KEY → ATTR_ENTITY_ID ≠ ATTR_VALUE → ATTR_KEY ≠ ATTR_VALUE →
  validate SERVICE_SETTING_SCHEMA payload = Some d →
  payload !! ATTR_KEY = Some k →
  payload !! ATTR_VALUE = Some v →
  (∃ s, k = VStr s) ∧ d !! ATTR_KEY = Some k ∧ d !! ATTR_VALUE = Some (VStr (py_str v)).
Proof.
  intros Hek Hev Hkv Hval Hk Hv.
  unfold validate in Hval. case_bool_decide; [|done].
  simpl in Hval. unfold validate_field in Hval. simpl in Hval.
  rewrite Hk, Hv in Hval. simpl in Hval.
  destruct k as [| | |s]; simpl in Hval; try done.
  destruct (payload !! ATTR_ENTITY_ID) as [e|]; [|done].
  destruct (cv_entity_id e) as [e'|]; simpl in Hval; [|done].
  injection Hval as <-. split; [by exists s|]. split.
  - rewrite lookup_insert_ne by done. by rewrite lookup_insert_eq.
  - rewrite lookup_insert_ne by done. rewrite lookup_insert_ne by done.
    by rewrite lookup_insert_eq.
Qed.

(** C3, amended: for a request accepted by the schema of a key-value
    service, with key [k] and value [v], whose entity resolves to [a], the
    service runs exactly one executor job, the call of its vendor method
    on [a] with the key as given and the value as the schema coerced it
    to a string, [str(v)]; when [v] is a string already, that is the
    pair as given. *)
Theorem key_value_services_forward f m payload d k v eid a h sessions :
  (f, m) ∈ [ (ServiceSetting, set_setting);
             (ServiceOptionActive, set_options_active_program);
             (ServiceOptionSelected, set_options_selected_program) ] →
  ATTR_ENTITY_ID ≠ ATTR_KEY → ATTR_ENTITY_ID ≠ ATTR_VALUE → ATTR_KEY ≠ ATTR_VALUE →
  validate (handler_schema f) payload = Some d →
  payload !! ATTR_KEY = Some k →
  payload !! ATTR_VALUE = Some v →
  hass_data h = Some sessions →
  d !! ATTR_ENTITY_ID = Some eid →
  search_sessions (PyDict.values sessions) eid = Some a →
  let j := JCall a m [AVal k; AVal (VStr (py_str v))] in
  call_handler f {| data := d |} h =
    (sdk_reply (executor_jobs h) j, with_executor_jobs (executor_jobs h ++ [j]) h) ∧
  (∀ s, v = VStr s → j = JCall a m [AVal k; AVal v]).
Proof.
  intros Hf Hek Hev Hkv Hval Hk Hv Hd He Hs j.
  split; [|by intros s ->].
  assert (validate SERVICE_SETTING_SCHEMA payload = Some d) as Hval'.
  { rewrite !elem_of_cons in Hf.
    destruct Hf as [[= -> ->]|[[= -> ->]|[[= -> ->]|Hf]]]; [done..|].
    by apply elem_of_nil in Hf. }
  destruct (validate_SERVICE_SETTING_SCHEMA _ _ _ _ Hek Hev Hkv Hval' Hk Hv) as (_ & Hdk & Hdv).
  rewrite !elem_of_cons in Hf.
  destruct Hf as [[= -> ->]|[[= -> ->]|[[= -> ->]|Hf]]]; [..|by apply elem_of_nil in Hf];
    simpl;
    unfold async_service_setting, async_service_option_active,
      async_service_option_selected;
    (erewrite (_async_service_key_value_found {| data := d |});
      [reflexivity | exact Hd | exact Hdk | exact Hdv | exact He | exact Hs | reflexivity]).
Qed.

(** *** Program services *)

Lemma options_dict_with_unit (k v u : value) :
  ATTR_KEY ≠ ATTR_VALUE → ATTR_UNIT ≠ ATTR_KEY → ATTR_UNIT ≠ ATTR_VALUE →
  <[ATTR_UNIT := u]> (<[ATTR_VALUE := v]> (<[ATTR_KEY := k]> (∅ : pyobj))) =
  {[ ATTR_KEY := k; ATTR_VALUE := v; ATTR_UNIT := u ]}.
Proof.
  intros Hkv Huk Huv. apply map_eq. intros i.
  rewrite !lookup_insert, ?lookup_singleton, ?lookup_empty.
  repeat case_decide; subst; done.
Qed.

Lemma options_dict_without_unit (k v : value) :
  ATTR_KEY ≠ ATTR_VALUE →
  <[ATTR_VALUE := v]> (<[ATTR_KEY := k]> (∅ : pyobj)) = {[ ATTR_KEY := k; ATTR_VALUE := v ]}.
Proof.
  intros Hkv. apply map_eq. intros i.
  rewrite !lookup_insert, ?lookup_singleton, ?lookup_empty.
  repeat case_decide; subst; done.
Qed.

(** C1: a select-program or start-program request with program [program]
    whose entity resolves to [a] runs exactly one executor job, the call
    of the vendor method on [a] with [(program, options)], where
    [options] is the one-element list holding the dict of key and value,
    with the unit field exactly when a unit was supplied, if key and value
    were both supplied, and [None] otherwise. *)
Theorem program_services_options f name m call (program : value) eid a h sessions :
  (f, name) ∈ [ (ServiceSelect, SERVICE_SELECT); (ServiceStart, SERVICE_START) ] →
  getattr_appliance name = Ok m →
  ATTR_KEY ≠ ATTR_VALUE → ATTR_UNIT ≠ ATTR_KEY → ATTR_UNIT ≠ ATTR_VALUE →
  hass_data h = Some sessions →
  data call !! ATTR_PROGRAM = Some program →
  data call !! ATTR_ENTITY_ID = Some eid →
  search_sessions (PyDict.values sessions) eid = Some a →
  let k := get_or_None (data call) ATTR_OPTION_KEY in
  let v := get_or_None (data call) ATTR_OPTION_VALUE in
  let u := get_or_None (data call) ATTR_OPTION_UNIT in
  ∃ options,
    executor_jobs (call_handler f call h).2 =
      executor_jobs h ++ [JCall a m [AVal program; options]] ∧
    (k ≠ VNone → v ≠ VNone → u ≠ VNone →
       options = AOptions [ {[ ATTR_KEY := k; ATTR_VALUE := v; ATTR_UNIT := u ]} ]) ∧
    (k ≠ VNone → v ≠ VNone → u = VNone →
       options = AOptions [ {[ ATTR_KEY := k; ATTR_VALUE := v ]} ]) ∧
    (k = VNone ∨ v = VNone → options = AVal VNone).
Proof.
  intros Hf Hm Hkv Huk Huv Hd Hp He Hs k v u.
  assert (call_handler f call = _async_service_program call name) as ->.
  { rewrite !elem_of_cons in Hf.
    destruct Hf as [[= -> ->]|[[= -> ->]|Hf]]; [done..|]. by apply elem_of_nil in Hf. }
  unfold _async_service_program. fold k v u.
  rewrite (bind_Ok _ _ _ _ _ (getitem_Some _ _ _ _ Hp)).
  rewrite (bind_Ok _ _ _ _ _ (getitem_Some _ _ _ _ He)).
  eexists. split.
  - erewrite bind_Ok; [|reflexivity].
    erewrite bind_Ok; [|by eapply _get_appliance_by_entity_id_found].
    cbv beta iota. rewrite (getattr_run _ _ _ _ Hm). simpl. reflexivity.
  - destruct k, v, u; simpl;
      rewrite ?options_dict_with_unit, ?options_dict_without_unit by done;
      intuition congruence.
Qed.

(** ** Module setup *)

(** C10: when the startup configuration has no entry for the module,
    setup returns [True] and its only effect is to create the registry
    slot as an empty map: no OAuth implementation is registered and the
    services of the host are as before, so a service name of the module
    that was not callable before setup is not callable after it. *)
Theorem async_setup_unconfigured (config : ConfigType) h :
  config !! DOMAIN = None →
  let r := async_setup config h in
  r = (Ok true, with_hass_data (Some []) h) ∧
  hass_data r.2 = Some [] ∧
  oauth_implementations r.2 = oauth_implementations h ∧
  hass_services r.2 = hass_services h ∧
  ∀ service,
    service ∈ [ SERVICE_OPTION_ACTIVE; SERVICE_OPTION_SELECTED; SERVICE_SETTING;
                SERVICE_PAUSE; SERVICE_RESUME; SERVICE_SELECT; SERVICE_START ] →
    hass_services h !! (DOMAIN, service) = None →
    hass_services r.2 !! (DOMAIN, service) = None.
Proof.
  intros Hc. simpl.
  assert (async_setup config h = (Ok true, with_hass_data (Some []) h)) as ->.
  { unfold async_setup. erewrite bind_Ok; [|reflexivity]. by rewrite Hc. }
  by repeat split.
Qed.

(** For contrast, a configured module registers its OAuth implementation
    and all seven services. *)
Lemma async_setup_configured (config : ConfigType) conf client_id client_secret h :
  config !! DOMAIN = Some conf →
  conf !! CONF_CLIENT_ID = Some client_id →
  conf !! CONF_CLIENT_SECRET = Some client_secret →
  let r := async_setup config h in
  r.1 = Ok true ∧
  hass_data r.2 = Some [] ∧
  oauth_implementations r.2 =
    oauth_implementations h ++
    [ {| impl_domain := DOMAIN; impl_client_id := client_id;
         impl_client_secret := client_secret;
         impl_authorize_url := OAUTH2_AUTHORIZE; impl_token_url := OAUTH2_TOKEN |} ] ∧
  ∀ service,
    service ∈ [ SERVICE_OPTION_ACTIVE; SERVICE_OPTION_SELECTED; SERVICE_SETTING;
                SERVICE_PAUSE; SERVICE_RESUME; SERVICE_SELECT; SERVICE_START ] →
    is_Some (hass_services r.2 !! (DOMAIN, service)).
Proof.
  intros Hc Hid Hsecret. simpl. unfold async_setup.
  erewrite bind_Ok; [|reflexivity]. rewrite Hc.
  unfold conf_getitem. rewrite Hid, Hsecret.
  repeat (erewrite bind_Ok; [|reflexivity]). simpl.
  repeat split.
  intros service Hin. rewrite !elem_of_cons in Hin.
  rewrite !lookup_insert. repeat case_decide; try by eexists.
  destruct Hin as [->|[->|[->|[->|[->|[->|[->|Hin]]]]]]]; try done.
  by apply elem_of_nil in Hin.
Qed.

(** ** Account removal *)

Lemma gather_unload_all_ok entry h :
  (∀ component, component ∈ PLATFORMS →
     forward_entry_unload (entry_id entry) component = Ok true) →
  gather (async_forward_entry_unload entry) PLATFORMS h = (Ok [true; true; true; true], h).
Proof.
  intros Hall. unfold PLATFORMS in *. simpl.
  unfold mbind, M_bind, async_forward_entry_unload.
  rewrite !Hall by (rewrite !elem_of_cons; auto 10).
  done.
Qed.

Lemma gather_unload_not_all_ok entry h :
  ¬ (∀ component, component ∈ PLATFORMS →
       forward_entry_unload (entry_id entry) component = Ok true) →
  ∃ r, gather (async_forward_entry_unload entry) PLATFORMS h = (r, h) ∧
       ∀ results, r = Ok results → all results = false.
Proof.
  intros Hnot. unfold PLATFORMS in *. simpl.
  unfold mbind, M_bind, async_forward_entry_unload.
  destruct (forward_entry_unload (entry_id entry) "binary_sensor") as [[|]|e1] eqn:E1;
  destruct (forward_entry_unload (entry_id entry) "light") as [[|]|e2] eqn:E2;
  destruct (forward_entry_unload (entry_id entry) "sensor") as [[|]|e3] eqn:E3;
  destruct (forward_entry_unload (entry_id entry) "switch") as [[|]|e4] eqn:E4;
  simpl; try (eexists; split; [reflexivity|]; intros results [= <-]; done).
  exfalso. apply Hnot. intros component Hin. rewrite !elem_of_cons in Hin.
  destruct Hin as [->|[->|[->|[->|Hin]]]]; try done. by apply elem_of_nil in Hin.
Qed.

Lemma all_unloaded_dec entry :
  (∀ component, component ∈ PLATFORMS →
     forward_entry_unload (entry_id entry) component = Ok true) ∨
  ¬ (∀ component, component ∈ PLATFORMS →
       forward_entry_unload (entry_id entry) component = Ok true).
Proof.
  destruct (decide (Forall (λ c, forward_entry_unload (entry_id entry) c = Ok true) PLATFORMS))
    as [Hall|Hnot]; rewrite Forall_forall in *; [by left | by right].
Qed.

(** C6: unloading a registered account.  When every platform teardown
    reports success the entry is popped from the registry and the unload
    returns [True]; when one does not, the host is left exactly as it was
    and the unload does not return [True].  So the entry is gone
    afterwards if and only if every teardown reported success. *)
Theorem async_unload_entry_all_or_nothing entry h sessions hc_api :
  hass_data h = Some sessions →
  PyDict.get (entry_id entry) sessions = Some hc_api →
  NoDup (PyDict.keys sessions) →
  let unloaded :=
    ∀ component, component ∈ PLATFORMS →
      forward_entry_unload (entry_id entry) component = Ok true in
  let r := async_unload_entry entry h in
  (unloaded →
     r = (Ok true, with_hass_data (Some (PyDict.remove (entry_id entry) sessions)) h)) ∧
  (¬ unloaded → r.2 = h ∧ r.1 ≠ Ok true) ∧
  ((hass_data r.2 ≫= PyDict.get (entry_id entry)) = None ↔ unloaded).
Proof.
  intros Hd Hget Hnd unloaded r.
  assert (unloaded →
    r = (Ok true, with_hass_data (Some (PyDict.remove (entry_id entry) sessions)) h))
    as Hyes.
  { intros Hall. unfold r, async_unload_entry.
    rewrite (bind_Ok _ _ _ _ _ (gather_unload_all_ok _ _ Hall)). simpl.
    erewrite bind_Ok; [reflexivity|].
    rewrite (bind_Ok _ _ _ _ _ (hass_data_DOMAIN_Some _ _ Hd)). by rewrite Hget. }
  assert (¬ unloaded → r.2 = h ∧ r.1 ≠ Ok true) as Hno.
  { intros Hnot. unfold r, async_unload_entry.
    destruct (gather_unload_not_all_ok entry h Hnot) as ([results|e] & Hrun & Hres).
    - rewrite (bind_Ok _ _ _ _ _ Hrun). rewrite (Hres results eq_refl). done.
    - rewrite (bind_Raise _ _ _ _ _ Hrun). done. }
  split; [done|]. split; [done|]. split.
  - intros Hgone. destruct (all_unloaded_dec entry) as [Hall|Hnot]; [done|].
    destruct (Hno Hnot) as [Hsame _]. rewrite Hsame, Hd in Hgone. simpl in Hgone.
    congruence.
  - intros Hall. rewrite (Hyes Hall). simpl. by apply PyDictFacts.get_remove_eq.
Qed.

(** ** The poll cycle *)

Lemma initialize_loop_run devs h :
  ∃ n,
    (for_each devs (λ device_dict, async_add_executor_job (JInitialize (device device_dict))) h).2 =
    with_executor_jobs (executor_jobs h ++ (JInitialize ∘ device <$> take n devs)) h.
Proof.
  revert h. induction devs as [|dd devs IH]; intros h; simpl.
  - exists 0%nat. simpl. rewrite app_nil_r. by destruct h.
  - unfold mbind, M_bind. unfold async_add_executor_job at 1.
    destruct (sdk_reply (executor_jobs h) (JInitialize (device dd))) as [[]|e].
    + destruct (IH (with_executor_jobs (executor_jobs h ++ [JInitialize (device dd)]) h))
        as [n Hn].
      exists (S n). rewrite Hn. simpl. by rewrite <- app_assoc.
    + by exists 1%nat.
Qed.

Lemma get_devices_run entry hc_api h sessions cached :
  hass_data h = Some sessions →
  PyDict.get entry sessions = Some cached →
  let h1 := with_executor_jobs (executor_jobs h ++ [JGetDevices entry]) h in
  let hc_api' := {| devices := sdk_appliances (executor_jobs h) entry |} in
  get_devices entry hc_api h =
    match sdk_reply (executor_jobs h) (JGetDevices entry) with
    | Ok _ => (Ok hc_api', with_hass_data (Some (PyDict.set entry hc_api' sessions)) h1)
    | Raise e => (Raise e, h1)
    end.
Proof.
  intros Hd Hget. simpl. unfold get_devices.
  erewrite bind_Ok; [|reflexivity].
  unfold mbind at 1, M_bind at 1, async_add_executor_job.
  destruct (sdk_reply (executor_jobs h) (JGetDevices entry)) as [[]|e]; [|done].
  erewrite bind_Ok; [|reflexivity]. unfold mret, M_ret, store_session. simpl.
  by rewrite Hd, Hget.
Qed.

(** What one execution of the poller's body does for a registered
    account: it fetches the device list once, initialises some of the
    fetched devices, possibly logs, and leaves the other sessions alone. *)
Lemma update_all_devices_body_run entry h sessions hc_api :
  hass_data h = Some sessions →
  PyDict.get (entry_id entry) sessions = Some hc_api →
  let fetch := sdk_reply (executor_jobs h) (JGetDevices (entry_id entry)) in
  let refreshed := {| devices := sdk_appliances (executor_jobs h) (entry_id entry) |} in
  let r := update_all_devices_body entry h in
  ∃ js logs sessions',
    r.2 = with_hass_data (Some sessions')
            (with_log_records (log_records h ++ logs)
               (with_executor_jobs
                  (executor_jobs h ++ JGetDevices (entry_id entry) :: js) h)) ∧
    Forall (λ j, ∃ d, j = JInitialize d) js ∧
    (fetch ≠ Ok tt → sessions' = sessions) ∧
    (fetch = Ok tt → sessions' = PyDict.set (entry_id entry) refreshed sessions) ∧
    (∀ status,
       (update_all_devices_try entry hc_api h).1 = Raise (HTTPError status) →
       r.1 = Ok tt ∧ logs = [cannot_update_record status]).
Proof.
  intros Hd Hget. simpl. unfold update_all_devices_body.
  rewrite (bind_Ok _ _ _ _ _ (hass_data_DOMAIN_Some _ _ Hd)). rewrite Hget.
  unfold try_except_HTTPError, update_all_devices_try.
  pose proof (get_devices_run (entry_id entry) hc_api h sessions hc_api Hd Hget) as Hrun.
  simpl in Hrun.
  destruct (sdk_reply (executor_jobs h) (JGetDevices (entry_id entry))) as [[]|e] eqn:Hfetch.
  - rewrite (bind_Ok _ _ _ _ _ Hrun). simpl.
    match goal with |- context [for_each ?l ?b ?h0] =>
      destruct (initialize_loop_run l h0) as [n Hn];
      destruct (for_each l b h0) as [res h3] eqn:Hloop
    end.
    simpl in Hn. subst h3.
    exists (JInitialize ∘ device <$>
              take n (sdk_appliances (executor_jobs h) (entry_id entry))),
      (match res with Raise (HTTPError status) => [cannot_update_record status] | _ => [] end),
      (PyDict.set (entry_id entry)
         {| devices := sdk_appliances (executor_jobs h) (entry_id entry) |} sessions).
    split; [|split; [|split; [done|split; [done|]]]].
    + destruct res as [[]|[]]; simpl;
        destruct h; simpl in *; rewrite <- ?app_assoc; simpl; by rewrite ?app_nil_r.
    + apply Forall_fmap, Forall_true. intros dd. by eexists.
    + intros status [= ->]. done.
  - rewrite (bind_Raise _ _ _ _ _ Hrun).
    exists [], (match e with HTTPError status => [cannot_update_record status] | _ => [] end),
      sessions.
    split; [|split; [constructor|split; [done|split; [done|]]]].
    + destruct e; simpl; destruct h; simpl in *; subst; by rewrite ?app_nil_r.
    + intros status [= ->]. done.
Qed.

(** C7, amended: in a poll cycle of a registered account during which
    a vendor call fails with an HTTP error, the error is caught: the
    cycle returns normally and logs one warning carrying the status code.
    When the failing call is the device-list fetch, the registry, and
    with it the cached device list, is as before; when the fetch succeeded
    and a device initialisation fails, the account's device list is the
    freshly fetched one. *)
Theorem poll_cycle_transport_failure entry h sessions hc_api status :
  hass_data h = Some sessions →
  PyDict.get (entry_id entry) sessions = Some hc_api →
  (update_all_devices_try entry hc_api h).1 = Raise (HTTPError status) →
  let fetch := sdk_reply (executor_jobs h) (JGetDevices (entry_id entry)) in
  let refreshed := {| devices := sdk_appliances (executor_jobs h) (entry_id entry) |} in
  let r := update_all_devices_body entry h in
  r.1 = Ok tt ∧
  log_records r.2 = log_records h ++ [cannot_update_record status] ∧
  (fetch ≠ Ok tt → hass_data r.2 = hass_data h) ∧
  (fetch = Ok tt →
     hass_data r.2 = Some (PyDict.set (entry_id entry) refreshed sessions)).
Proof.
  intros Hd Hget Hfail. simpl.
  destruct (update_all_devices_body_run entry h sessions hc_api Hd Hget)
    as (js & logs & sessions' & Hstate & _ & Hkeep & Hrefresh & Hcaught).
  destruct (Hcaught status Hfail) as [Hok ->].
  rewrite Hstate. simpl. split; [done|]. split; [done|]. split.
  - intros Hfetch. by rewrite (Hkeep Hfetch).
  - intros Hfetch. by rewrite (Hrefresh Hfetch).
Qed.

(** ** The throttle *)

Lemma update_all_devices_throttled entry h t :
  throttle h !! entry_id entry = Some t →
  utcnow h - t ≤ SCAN_INTERVAL →
  update_all_devices entry h = (Ok tt, h).
Proof.
  intros Ht Hle. unfold update_all_devices, Throttle.
  do 2 (erewrite bind_Ok; [|reflexivity]). rewrite Ht.
  by rewrite bool_decide_eq_true_2.
Qed.

Lemma update_all_devices_runs entry h :
  (∀ t, throttle h !! entry_id entry = Some t → SCAN_INTERVAL < utcnow h - t) →
  update_all_devices entry h =
    update_all_devices_body entry
      (with_throttle (<[entry_id entry := utcnow h]> (throttle h)) h).
Proof.
  intros Hold. unfold update_all_devices, Throttle.
  do 2 (erewrite bind_Ok; [|reflexivity]).
  destruct (throttle h !! entry_id entry) as [t|] eqn:Ht.
  - rewrite bool_decide_eq_false_2 by (specialize (Hold t eq_refl); lia).
    by erewrite bind_Ok; [|reflexivity].
  - by erewrite bind_Ok; [|reflexivity].
Qed.

(** The body never touches the throttle or the clock, nor the session of
    another account. *)
Lemma update_all_devices_body_frame entry h :
  let h' := (update_all_devices_body entry h).2 in
  throttle h' = throttle h ∧ utcnow h' = utcnow h ∧
  ∀ e2, e2 ≠ entry_id entry →
    (hass_data h' ≫= PyDict.get e2) = (hass_data h ≫= PyDict.get e2).
Proof.
  simpl. destruct (hass_data h) as [sessions|] eqn:Hd.
  - destruct (PyDict.get (entry_id entry) sessions) as [hc_api|] eqn:Hget.
    + destruct (update_all_devices_body_run entry h sessions hc_api Hd Hget)
        as (js & logs & sessions' & Hstate & _ & Hkeep & Hrefresh & _).
      rewrite Hstate. simpl. split; [done|]. split; [done|]. intros e2 Hne.
      destruct (decide (sdk_reply (executor_jobs h) (JGetDevices (entry_id entry)) = Ok tt))
        as [Hfetch|Hfetch].
      * rewrite (Hrefresh Hfetch). by apply PyDictFacts.get_set_ne.
      * by rewrite (Hkeep Hfetch).
    + unfold update_all_devices_body.
      rewrite (bind_Ok _ _ _ _ _ (hass_data_DOMAIN_Some _ _ Hd)). rewrite Hget.
      simpl. by rewrite Hd.
  - unfold update_all_devices_body. erewrite bind_Raise.
    + simpl. by rewrite Hd.
    + unfold hass_data_DOMAIN. by rewrite Hd.
Qed.

Lemma update_all_devices_other_account entry h e2 :
  e2 ≠ entry_id entry →
  let h' := (update_all_devices entry h).2 in
  throttle h' !! e2 = throttle h !! e2 ∧ utcnow h' = utcnow h ∧
  (hass_data h' ≫= PyDict.get e2) = (hass_data h ≫= PyDict.get e2).
Proof.
  intros Hne. simpl.
  destruct (throttle h !! entry_id entry) as [t|] eqn:Ht.
  - destruct (decide (utcnow h - t ≤ SCAN_INTERVAL)) as [Hle|Hgt].
    + by rewrite (update_all_devices_throttled _ _ _ Ht Hle).
    + rewrite update_all_devices_runs by (intros t' Ht'; rewrite Ht in Ht'; injection Ht' as <-; lia).
      destruct (update_all_devices_body_frame entry
        (with_throttle (<[entry_id entry := utcnow h]> (throttle h)) h)) as (Hth & Hnow & Hdata).
      simpl in *. rewrite Hth, Hnow, (Hdata e2 Hne).
      by rewrite lookup_insert_ne.
  - rewrite update_all_devices_runs by (intros t' Ht'; by rewrite Ht in Ht').
    destruct (update_all_devices_body_frame entry
      (with_throttle (<[entry_id entry := utcnow h]> (throttle h)) h)) as (Hth & Hnow & Hdata).
    simpl in *. rewrite Hth, Hnow, (Hdata e2 Hne).
    by rewrite lookup_insert_ne.
Qed.

Lemma count_fetches_run e l js :
  Forall (λ j, ∃ d, j = JInitialize d) js →
  count_fetches e (l ++ JGetDevices e :: js) = S (count_fetches e l).
Proof.
  intros Hjs. unfold count_fetches.
  rewrite filter_app, filter_cons_True by done.
  assert (filter (λ j, j = JGetDevices e) js = []) as ->.
  { induction Hjs as [|j js [d ->] _ IH]; [done|]. by rewrite filter_cons_False. }
  rewrite length_app. simpl. lia.
Qed.

(** C4: the throttle is kept per account.  Triggering the poller for
    one account and then at once, for the first time, for another
    registered account still runs the second account's cycle: the second
    trigger performs the device-list fetch of the second account. *)
Theorem throttle_is_per_account entry1 entry2 h sessions hc_api2 :
  entry_id entry1 ≠ entry_id entry2 →
  hass_data h = Some sessions →
  PyDict.get (entry_id entry2) sessions = Some hc_api2 →
  throttle h !! entry_id entry2 = None →
  let h1 := (update_all_devices entry1 h).2 in
  let h2 := (update_all_devices entry2 h1).2 in
  (∃ js, executor_jobs h2 = executor_jobs h1 ++ JGetDevices (entry_id entry2) :: js ∧
         Forall (λ j, ∃ d, j = JInitialize d) js) ∧
  count_fetches (entry_id entry2) (executor_jobs h2) =
    S (count_fetches (entry_id entry2) (executor_jobs h1)).
Proof.
  intros Hne Hd Hget Hfirst. simpl.
  destruct (update_all_devices_other_account entry1 h (entry_id entry2)) as (Hth & _ & Hdata);
    [done|].
  simpl in *. rewrite Hfirst in Hth. rewrite Hd in Hdata. simpl in Hdata. rewrite Hget in Hdata.
  set (h1 := (update_all_devices entry1 h).2) in *.
  destruct (hass_data h1) as [sessions1|] eqn:Hd1; [|done]. simpl in Hdata.
  rewrite update_all_devices_runs by (intros t Ht; by rewrite Hth in Ht).
  destruct (update_all_devices_body_run entry2
    (with_throttle (<[entry_id entry2 := utcnow h1]> (throttle h1)) h1) sessions1 hc_api2)
    as (js & logs & sessions' & Hstate & Hjs & _); [done..|].
  rewrite Hstate. simpl.
  split; [by exists js | by apply count_fetches_run].
Qed.

(** C5: for a registered account whose throttle lets a trigger through,
    that trigger performs the device-list fetch once, and a second
    trigger no later than one minute after it is a no-op: it returns at
    once and leaves the host, executor trace included, as it was.  Over
    the two triggers the fetch is performed exactly once. *)
Theorem throttle_coalesces_within_window entry h sessions hc_api dt :
  hass_data h = Some sessions →
  PyDict.get (entry_id entry) sessions = Some hc_api →
  (∀ t, throttle h !! entry_id entry = Some t → SCAN_INTERVAL < utcnow h - t) →
  0 ≤ dt ≤ SCAN_INTERVAL →
  let h1 := (update_all_devices entry h).2 in
  let h2 := (sleep dt h1).2 in
  let r := update_all_devices entry h2 in
  count_fetches (entry_id entry) (executor_jobs h1) =
    S (count_fetches (entry_id entry) (executor_jobs h)) ∧
  r = (Ok tt, h2) ∧
  count_fetches (entry_id entry) (executor_jobs r.2) =
    S (count_fetches (entry_id entry) (executor_jobs h)).
Proof.
  intros Hd Hget Hopen Hdt h1 h2 r.
  set (h0 := with_throttle (<[entry_id entry := utcnow h]> (throttle h)) h).
  assert (h1 = (update_all_devices_body entry h0).2) as Hh1.
  { unfold h1. by rewrite (update_all_devices_runs _ _ Hopen). }
  destruct (update_all_devices_body_run entry h0 sessions hc_api)
    as (js & logs & sessions' & Hstate & Hjs & _); [done..|].
  rewrite <- Hh1 in Hstate.
  assert (count_fetches (entry_id entry) (executor_jobs h1) =
          S (count_fetches (entry_id entry) (executor_jobs h))) as Hcount.
  { rewrite Hstate. simpl. by apply count_fetches_run. }
  assert (r = (Ok tt, h2)) as Hr.
  { apply (update_all_devices_throttled _ _ (utcnow h)).
    - unfold h2. rewrite Hstate. simpl. by rewrite lookup_insert_eq.
    - unfold h2. rewrite Hstate. simpl. lia. }
  split; [done|]. split; [done|]. by rewrite Hr.
Qed.

End Properties.

(** * The properties on concrete runs *)

Example start_program_options_with_unit :
  executor_jobs
    (async_service_start (consts := const_py) (vendor := vendor_ok [])
       start_with_unit (hass0 one_account)).2 =
  [ JCall {| haId := "BOSCH-SMV-01" |} start_program
      [ AVal (VStr "Dishcare.Dishwasher.Program.Eco50");
        AOptions [ {[ "key" := VStr "Temperature"; "value" := VInt 60;
                      "unit" := VStr "C" ]} ] ] ].
Proof. vm_compute. reflexivity. Qed.

Example start_program_options_without_unit :
  executor_jobs
    (async_service_start (consts := const_py) (vendor := vendor_ok [])
       start_without_unit (hass0 one_account)).2 =
  [ JCall {| haId := "BOSCH-SMV-01" |} start_program
      [ AVal (VStr "Dishcare.Dishwasher.Program.Eco50");
        AOptions [ {[ "key" := VStr "Temperature"; "value" := VInt 60 ]} ] ] ].
Proof. vm_compute. reflexivity. Qed.

Example start_program_no_options :
  executor_jobs
    (async_service_start (consts := const_py) (vendor := vendor_ok [])
       start_without_options (hass0 one_account)).2 =
  [ JCall {| haId := "BOSCH-SMV-01" |} start_program
      [ AVal (VStr "Dishcare.Dishwasher.Program.Eco50"); AVal VNone ] ].
Proof. vm_compute. reflexivity. Qed.

Lemma program_services_options_witness :
  ∃ options,
    executor_jobs
      (async_service_start (consts := const_py) (vendor := vendor_ok [])
         start_with_unit (hass0 one_account)).2 =
      [ JCall {| haId := "BOSCH-SMV-01" |} start_program
          [ AVal (VStr "Dishcare.Dishwasher.Program.Eco50"); options ] ] ∧
    options = AOptions [ {[ "key" := VStr "Temperature"; "value" := VInt 60;
                            "unit" := VStr "C" ]} ].
Proof.
  destruct (program_services_options (consts := const_py) (vendor := vendor_ok [])
              ServiceStart "start_program" start_program start_with_unit
              (VStr "Dishcare.Dishwasher.Program.Eco50")
              (VStr "switch.dishwasher_power") {| haId := "BOSCH-SMV-01" |}
              (hass0 one_account) one_account)
    as (options & Hjobs & Hunit & _ & _).
  - right. left.
  - vm_compute. reflexivity.
  - vm_compute. discriminate.
  - vm_compute. discriminate.
  - vm_compute. discriminate.
  - reflexivity.
  - vm_compute. reflexivity.
  - vm_compute. reflexivity.
  - vm_compute. reflexivity.
  - exists options. split; [exact Hjobs|].
    apply Hunit; vm_compute; discriminate.
Defined.

Lemma dispatch_unknown_entity_skips_witness :
  let h := hass0 two_accounts in
  let r := call_handler (consts := const_py) (vendor := vendor_ok []) ServicePause
             {| data := pause_unknown_payload |} h in
  executor_jobs r.2 = executor_jobs h ∧
  ∃ debug,
    Forall (λ rec, levelname rec = DEBUG) debug ∧
    r = (Ok tt,
         with_log_records
           (log_records h ++ debug ++ [not_found_record (VStr "switch.unknown")]) h).
Proof.
  apply (dispatch_unknown_entity_skips (consts := const_py) (vendor := vendor_ok [])
           (host := host_of (λ _, true))
           ServicePause pause_unknown_payload pause_unknown_payload
           (VStr "switch.unknown") (hass0 two_accounts) two_accounts).
  - vm_compute. reflexivity.
  - reflexivity.
  - vm_compute. reflexivity.
  - apply search_sessions_None. vm_compute. reflexivity.
Defined.

Lemma pause_resume_execute_command_witness :
  let h := hass0 one_account in
  let pause :=
    JCall {| haId := "BOSCH-SMV-01" |} execute_command
      [AVal (VStr "BSH.Common.Command.PauseProgram")] in
  let resume :=
    JCall {| haId := "BOSCH-SMV-01" |} execute_command
      [AVal (VStr "BSH.Common.Command.ResumeProgram")] in
  async_service_pause (consts := const_py) (vendor := vendor_ok []) pause_dishwasher h =
    (Ok tt, with_executor_jobs [pause] h) ∧
  async_service_resume (consts := const_py) (vendor := vendor_ok []) pause_dishwasher h =
    (Ok tt, with_executor_jobs [resume] h).
Proof.
  apply (pause_resume_execute_command (consts := const_py) (vendor := vendor_ok [])
           pause_dishwasher (hass0 one_account) one_account
           (VStr "switch.dishwasher_power") {| haId := "BOSCH-SMV-01" |}).
  - reflexivity.
  - vm_compute. reflexivity.
  - vm_compute. reflexivity.
Defined.

Lemma key_value_services_forward_witness :
  let h := hass0 one_account in
  let j :=
    JCall {| haId := "BOSCH-SMV-01" |} set_setting
      [ AVal (VStr "BSH.Common.Setting.PowerState");
        AVal (VStr "BSH.Common.EnumType.PowerState.On") ] in
  call_handler (consts := const_py) (vendor := vendor_ok []) ServiceSetting
    {| data := setting_payload_str |} h =
  (Ok tt, with_executor_jobs [j] h).
Proof.
  apply (key_value_services_forward (consts := const_py) (vendor := vendor_ok [])
           (host := host_of (λ _, true))
           ServiceSetting set_setting setting_payload_str setting_payload_str
           (VStr "BSH.Common.Setting.PowerState")
           (VStr "BSH.Common.EnumType.PowerState.On")
           (VStr "switch.dishwasher_power") {| haId := "BOSCH-SMV-01" |}
           (hass0 one_account) one_account).
  - left.
  - vm_compute. discriminate.
  - vm_compute. discriminate.
  - vm_compute. discriminate.
  - vm_compute. reflexivity.
  - vm_compute. reflexivity.
  - vm_compute. reflexivity.
  - reflexivity.
  - vm_compute. reflexivity.
  - vm_compute. reflexivity.
Defined.

(** The claim C3 as stated fails on a numeric value: the request
    (key, 60) passes the schema, and the vendor's [set_setting] is called
    with the string "60", not with the number 60. *)
Lemma key_value_value_is_coerced :
  ∃ d,
    validate (host := host_of (λ _, true)) (SERVICE_SETTING_SCHEMA (consts := const_py))
      setting_payload_int = Some d ∧
    executor_jobs
      (async_service_setting (consts := const_py) (vendor := vendor_ok [])
         {| data := d |} (hass0 one_account)).2 =
      [ JCall {| haId := "BOSCH-SMV-01" |} set_setting
          [ AVal (VStr "Cooking.Common.Setting.LightingBrightness"); AVal (VStr "60") ] ] ∧
    setting_payload_int !! "value" = Some (VInt 60) ∧
    AVal (VStr "60") ≠ AVal (VInt 60).
Proof.
  exists {[ "entity_id" := VStr "switch.dishwasher_power";
            "key" := VStr "Cooking.Common.Setting.LightingBrightness";
            "value" := VStr "60" ]}.
  split; [vm_compute; reflexivity|].
  split; [vm_compute; reflexivity|].
  split; [vm_compute; reflexivity | discriminate].
Qed.

Lemma async_setup_unconfigured_witness :
  async_setup (consts := const_py) ∅ (hass0 one_account) =
    (Ok true, with_hass_data (Some []) (hass0 one_account)).
Proof.
  apply (async_setup_unconfigured (consts := const_py) ∅ (hass0 one_account)).
  reflexivity.
Defined.

Lemma async_unload_entry_all_or_nothing_witness :
  async_unload_entry (consts := const_py) (host := host_of (λ _, true)) entry1
    (hass0 two_accounts) =
  (Ok true,
   hass0 [ ("entry-2", {| devices := [ {| device := oven |} ] |}) ]).
Proof.
  apply (async_unload_entry_all_or_nothing (consts := const_py)
           (host := host_of (λ _, true)) entry1 (hass0 two_accounts) two_accounts
           {| devices := [ {| device := dishwasher |} ] |}).
  - reflexivity.
  - vm_compute. reflexivity.
  - refine (bool_decide_unpack _ _). vm_compute. exact I.
  - intros component _. reflexivity.
Defined.

(** The claim C7 as stated fails when the failure comes after the
    fetch: the fetch replaces the cached dishwasher by the oven, the
    oven's initialisation answers 503, the warning is logged and nothing is
    raised, and the cached device list has changed. *)
Lemma poll_cycle_init_failure_changes_devices :
  let h := hass0 one_account in
  let r := update_all_devices_body (consts := const_py)
             (vendor := vendor_init_fails [ {| device := oven |} ] 503) entry1 h in
  r.1 = Ok tt ∧
  log_records r.2 = [cannot_update_record 503] ∧
  (hass_data h ≫= PyDict.get "entry-1") = Some {| devices := [ {| device := dishwasher |} ] |} ∧
  (hass_data r.2 ≫= PyDict.get "entry-1") = Some {| devices := [ {| device := oven |} ] |} ∧
  (hass_data r.2 ≫= PyDict.get "entry-1") ≠ (hass_data h ≫= PyDict.get "entry-1").
Proof.
  vm_compute. repeat split; discriminate.
Qed.

Lemma poll_cycle_transport_failure_witness :
  let h := hass0 one_account in
  let r := update_all_devices_body (consts := const_py)
             (vendor := vendor_fetch_fails 503) entry1 h in
  r.1 = Ok tt ∧
  log_records r.2 = [cannot_update_record 503] ∧
  hass_data r.2 = hass_data h.
Proof.
  destruct (poll_cycle_transport_failure (consts := const_py)
              (vendor := vendor_fetch_fails 503) entry1 (hass0 one_account) one_account
              {| devices := [ {| device := dishwasher |} ] |} 503)
    as (Hok & Hlog & Hkeep & _).
  - reflexivity.
  - vm_compute. reflexivity.
  - vm_compute. reflexivity.
  - split; [exact Hok|]. split; [exact Hlog|]. apply Hkeep. vm_compute. discriminate.
Defined.

Lemma throttle_is_per_account_witness :
  let h1 := (update_all_devices (consts := const_py) (vendor := vendor_ok []) entry1
               (hass0 two_accounts)).2 in
  let h2 := (update_all_devices (consts := const_py) (vendor := vendor_ok []) entry2 h1).2 in
  count_fetches "entry-2" (executor_jobs h2) = S (count_fetches "entry-2" (executor_jobs h1)).
Proof.
  apply (throttle_is_per_account (consts := const_py) (vendor := vendor_ok [])
           entry1 entry2 (hass0 two_accounts) two_accounts
           {| devices := [ {| device := oven |} ] |}).
  - vm_compute. discriminate.
  - reflexivity.
  - vm_compute. reflexivity.
  - vm_compute. reflexivity.
Defined.

Lemma throttle_coalesces_within_window_witness :
  let h := hass0 one_account in
  let h1 := (update_all_devices (consts := const_py) (vendor := vendor_ok []) entry1 h).2 in
  let h2 := (sleep 30000000 h1).2 in
  update_all_devices (consts := const_py) (vendor := vendor_ok []) entry1 h2 = (Ok tt, h2) ∧
  count_fetches "entry-1" (executor_jobs h2) = 1%nat.
Proof.
  destruct (throttle_coalesces_within_window (consts := const_py) (vendor := vendor_ok [])
              entry1 (hass0 one_account) one_account
              {| devices := [ {| device := dishwasher |} ] |} 30000000)
    as (Hfirst & Hnoop & _).
  - reflexivity.
  - vm_compute. reflexivity.
  - intros t Ht. vm_compute in Ht. discriminate.
  - vm_compute. split; discriminate.
  - split; [exact Hnoop | exact Hfirst].
Defined.

(** * Further properties of the module *)

Section Resolver.
Context {consts : Const}.

Lemma search_devices_app_l ds1 ds2 eid :
  (∀ dd, dd ∈ ds1 → ¬ device_owns dd eid) →
  search_devices (ds1 ++ ds2) eid = search_devices ds2 eid.
Proof.
  induction ds1 as [|dd ds1 IH]; intros Hnone; simpl; [done|].
  destruct (search_entities _ _ _) as [a|] eqn:Hse.
  - exfalso. apply search_entities_Some in Hse as [_ (x & Hx & Heq)].
    apply (Hnone dd); [left | by exists x].
  - apply IH. intros dd' Hdd'. apply Hnone. by right.
Qed.

Lemma search_entities_owned dd eid :
  device_owns dd eid →
  search_entities (device dd) (entities (device dd)) eid = Some (appliance (device dd)).
Proof.
  intros (x & Hx & Heq).
  destruct (search_entities _ _ _) as [a|] eqn:Hse.
  - by apply search_entities_Some in Hse as [-> _].
  - exfalso. rewrite search_entities_None in Hse. by apply (Hse x).
Qed.

Lemma search_sessions_app_l hcs1 hcs2 eid :
  ¬ owns_entity hcs1 eid →
  search_sessions (hcs1 ++ hcs2) eid = search_sessions hcs2 eid.
Proof.
  induction hcs1 as [|hc hcs1 IH]; intros Hnone; simpl; [done|].
  destruct (search_devices _ _) as [a|] eqn:Hsd.
  - exfalso. apply Hnone.
    apply search_devices_Some in Hsd as (dd & x & Hdd & _ & Hx & Heq).
    exists hc, dd, x. split; [left | done].
  - apply IH. intros (hc' & dd & x & Hhc & Hrest). apply Hnone.
    exists hc', dd, x. split; [by right | done].
Qed.

(** X1: the resolver finds a target exactly when some entity of some
    registered session carries the identifier; the target it returns is
    the appliance handle of a device owning such an entity, and a
    successful resolution changes nothing in the host, log included. *)
Theorem resolver_sound_and_complete h sessions eid :
  hass_data h = Some sessions →
  (∀ a, (_get_appliance_by_entity_id eid h).1 = Ok (Some a) →
     (_get_appliance_by_entity_id eid h).2 = h ∧
     ∃ hc dd, hc ∈ PyDict.values sessions ∧ dd ∈ devices hc ∧
              device_owns dd eid ∧ a = appliance (device dd)) ∧
  (owns_entity (PyDict.values sessions) eid →
     ∃ a, _get_appliance_by_entity_id eid h = (Ok (Some a), h)).
Proof.
  intros Hd. split.
  - intros a Hres.
    destruct (search_sessions (PyDict.values sessions) eid) as [a'|] eqn:Hs.
    + rewrite (_get_appliance_by_entity_id_found _ _ _ _ Hd Hs) in Hres |- *.
      simpl in Hres. injection Hres as ->. split; [done|].
      apply search_sessions_Some in Hs as (hc & dd & x & Hhc & Hdd & Ha & Hx & Heq).
      exists hc, dd. repeat split; try done. by exists x.
    + apply search_sessions_None in Hs.
      by rewrite (_get_appliance_by_entity_id_not_found _ _ _ Hd Hs) in Hres.
  - intros Howns.
    destruct (search_sessions (PyDict.values sessions) eid) as [a|] eqn:Hs.
    + exists a. by apply (_get_appliance_by_entity_id_found _ sessions).
    + by apply search_sessions_None in Hs.
Qed.

(** X2: first match wins.  Sessions are scanned in the registry's
    insertion order and devices in list order: the target is the appliance
    of the first device owning the entity, whatever follows it. *)
Theorem resolver_first_match_wins h sessions before hc after ds1 dd ds2 eid :
  hass_data h = Some sessions →
  PyDict.values sessions = before ++ hc :: after →
  devices hc = ds1 ++ dd :: ds2 →
  ¬ owns_entity before eid →
  (∀ dd', dd' ∈ ds1 → ¬ device_owns dd' eid) →
  device_owns dd eid →
  _get_appliance_by_entity_id eid h = (Ok (Some (appliance (device dd))), h).
Proof.
  intros Hd Hvalues Hdevs Hbefore Hds1 Hdd.
  apply (_get_appliance_by_entity_id_found _ sessions); [done|].
  rewrite Hvalues, (search_sessions_app_l _ _ _ Hbefore). simpl.
  rewrite Hdevs, (search_devices_app_l _ _ _ Hds1). simpl.
  by rewrite (search_entities_owned _ _ Hdd).
Qed.

(** X3: when all devices owning the entity share one appliance handle,
    as they do when identifiers are unique, the resolver returns that
    handle whatever the order of sessions and devices. *)
Theorem resolver_unique_owner h sessions hc dd eid :
  hass_data h = Some sessions →
  hc ∈ PyDict.values sessions →
  dd ∈ devices hc →
  device_owns dd eid →
  (∀ hc' dd', hc' ∈ PyDict.values sessions → dd' ∈ devices hc' → device_owns dd' eid →
     appliance (device dd') = appliance (device dd)) →
  _get_appliance_by_entity_id eid h = (Ok (Some (appliance (device dd))), h).
Proof.
  intros Hd Hhc Hdd Howns Hunique.
  apply (_get_appliance_by_entity_id_found _ sessions); [done|].
  destruct (search_sessions (PyDict.values sessions) eid) as [a|] eqn:Hs.
  - apply search_sessions_Some in Hs as (hc' & dd' & x & Hhc' & Hdd' & -> & Hx & Heq).
    f_equal. apply (Hunique hc' dd'); [done..|]. by exists x.
  - exfalso. apply search_sessions_None in Hs. apply Hs.
    destruct Howns as (x & Hx & Heq). by exists hc, dd, x.
Qed.

End Resolver.

Section Schemas.
Context {consts : Const} {host : Host}.

Lemma validate_fold_keys payload s d :
  foldr (validate_field payload) (Some ∅) s = Some d →
  ∀ k, is_Some (d !! k) ↔ is_Some (payload !! k) ∧ k ∈ marker_key <$> s.*1.
Proof.
  revert d. induction s as [|f s IH]; simpl; intros d Hd k.
  - injection Hd as <-. rewrite lookup_empty. split; [by intros [] | intros [_ Hk]].
    by apply elem_of_nil in Hk.
  - unfold validate_field in Hd at 1.
    destruct (foldr _ _ s) as [out|]; simpl in Hd; [|done].
    rewrite elem_of_cons. specialize (IH out eq_refl k).
    destruct (payload !! marker_key f.1) as [x|] eqn:Hx.
    + destruct (run_validator f.2 x) as [x'|]; simpl in Hd; [|done].
      injection Hd as <-. destruct (decide (marker_key f.1 = k)) as [<-|Hne].
      * rewrite lookup_insert_eq, Hx. split; [intros _; split; [by eexists | by left]|by eexists].
      * rewrite lookup_insert_ne by done. rewrite IH.
        split; [intros [? ?]; by auto | intros [? [?|?]]; [congruence | done]].
    + assert (d = out) as -> by (destruct f.1; congruence).
      rewrite IH. split; [intros [? ?]; by auto|].
      intros [Hk [->|?]]; [|done]. rewrite Hx in Hk. by destruct Hk.
Qed.

Lemma validate_fold_lookup payload s d m v x :
  NoDup (marker_key <$> s.*1) →
  foldr (validate_field payload) (Some ∅) s = Some d →
  (m, v) ∈ s →
  payload !! marker_key m = Some x →
  ∃ x', run_validator v x = Some x' ∧ d !! marker_key m = Some x'.
Proof.
  revert d. induction s as [|f s IH]; simpl; intros d Hnd Hd Hin Hx.
  - by apply elem_of_nil in Hin.
  - apply NoDup_cons in Hnd as [Hfresh Hnd].
    unfold validate_field in Hd at 1.
    destruct (foldr _ _ s) as [out|]; simpl in Hd; [|done].
    apply elem_of_cons in Hin as [<-|Hin].
    + simpl in Hd. rewrite Hx in Hd.
      destruct (run_validator v x) as [x'|]; simpl in Hd; [|done].
      injection Hd as <-. exists x'. by rewrite lookup_insert_eq.
    + destruct (IH out Hnd eq_refl Hin Hx) as (x' & Hrun & Hout).
      exists x'. split; [done|].
      assert (marker_key f.1 ≠ marker_key m) as Hne.
      { intros Heq. apply Hfresh. rewrite Heq.
        apply (list_elem_of_fmap_2 (marker_key ∘ fst) s (m, v)) in Hin.
        by rewrite list_fmap_compose in Hin. }
      destruct (payload !! marker_key f.1) as [y|].
      * destruct (run_validator f.2 y) as [y'|]; simpl in Hd; [|done].
        injection Hd as <-. by rewrite lookup_insert_ne.
      * destruct f.1; congruence.
Qed.

Lemma validate_dom s payload d :
  validate s payload = Some d →
  dom d = dom payload ∧
  ∀ k, is_Some (payload !! k) → k ∈ marker_key <$> s.*1.
Proof.
  unfold validate. case_bool_decide as Hsub; [|done]. intros Hd.
  assert (∀ k, is_Some (payload !! k) → k ∈ marker_key <$> s.*1) as Hlisted.
  { intros k Hk. apply elem_of_dom in Hk. apply Hsub in Hk.
    by apply elem_of_list_to_set in Hk. }
  split; [|done]. apply set_eq. intros k. rewrite !elem_of_dom.
  rewrite (validate_fold_keys _ _ _ Hd k). split; [by intros [? _] | by auto].
Qed.

(** X4: a payload that passes a schema has no field the schema does not
    list, and validation hands on exactly the payload's fields: none is
    added, none is dropped. *)
Theorem validate_keeps_fields s payload d :
  validate s payload = Some d →
  dom d = dom payload ∧
  ∀ k, is_Some (payload !! k) → k ∈ marker_key <$> s.*1.
Proof.
  unfold validate. case_bool_decide as Hsub; [|done]. intros Hd.
  assert (∀ k, is_Some (payload !! k) → k ∈ marker_key <$> s.*1) as Hlisted.
  { intros k Hk. apply elem_of_dom in Hk. apply Hsub in Hk.
    by apply elem_of_list_to_set in Hk. }
  split; [|done]. apply set_eq. intros k. rewrite !elem_of_dom.
  rewrite (validate_fold_keys _ _ _ Hd k). split; [by intros [? _] | by auto].
Qed.

Lemma validate_entity_id f payload d :
  validate (handler_schema f) payload = Some d →
  ∃ v e, payload !! ATTR_ENTITY_ID = Some v ∧ cv_entity_id v = Some e ∧
         d !! ATTR_ENTITY_ID = Some (VStr e).
Proof.
  unfold validate. case_bool_decide; [|done].
  assert (∃ rest, handler_schema f = (Required ATTR_ENTITY_ID, cv_entity_id_validator) :: rest)
    as [rest ->] by (destruct f; by eexists).
  simpl. unfold validate_field at 1.
  destruct (foldr _ _ rest) as [out|]; simpl; [|done].
  destruct (payload !! ATTR_ENTITY_ID) as [v|] eqn:Hv; [|done].
  destruct (cv_entity_id v) as [e|] eqn:He; simpl; [|done].
  intros [= <-]. exists v, e. rewrite lookup_insert_eq. by repeat split.
Qed.

(** X5: every service demands an entity id.  A payload passes the schema
    of a service only if it holds an entity id that [cv.entity_id]
    accepts, and the callback receives the validator's result, a string,
    in its place. *)
Theorem services_require_entity_id f payload d :
  validate (handler_schema f) payload = Some d →
  ∃ v e, payload !! ATTR_ENTITY_ID = Some v ∧ cv_entity_id v = Some e ∧
         d !! ATTR_ENTITY_ID = Some (VStr e).
Proof.
  unfold validate. case_bool_decide; [|done].
  assert (∃ rest, handler_schema f = (Required ATTR_ENTITY_ID, cv_entity_id_validator) :: rest)
    as [rest ->] by (destruct f; by eexists).
  simpl. unfold validate_field at 1.
  destruct (foldr _ _ rest) as [out|]; simpl; [|done].
  destruct (payload !! ATTR_ENTITY_ID) as [v|] eqn:Hv; [|done].
  destruct (cv_entity_id v) as [e|] eqn:He; simpl; [|done].
  intros [= <-]. exists v, e. rewrite lookup_insert_eq. by repeat split.
Qed.

(** X6: the schema of pause and resume accepts exactly the payloads made
    of a valid entity id and nothing else. *)
Theorem command_schema_accepts payload d :
  validate SERVICE_COMMAND_SCHEMA payload = Some d ↔
  ∃ v e, payload = {[ ATTR_ENTITY_ID := v ]} ∧ cv_entity_id v = Some e ∧
         d = {[ ATTR_ENTITY_ID := VStr e ]}.
Proof.
  split.
  - intros Hval.
    destruct (validate_entity_id ServicePause payload d Hval) as (v & e & Hv & He & _).
    destruct (validate_dom _ _ _ Hval) as [_ Hlisted].
    exists v, e. split; [|split; [done|]].
    + apply map_eq. intros k. destruct (decide (ATTR_ENTITY_ID = k)) as [<-|Hne].
      * by rewrite lookup_singleton_eq.
      * rewrite lookup_singleton_ne by done.
        destruct (payload !! k) as [x|] eqn:Hk; [|done].
        specialize (Hlisted k (ltac:(by eexists))). simpl in Hlisted.
        apply elem_of_cons in Hlisted as [->|Hnil]; [done | by apply elem_of_nil in Hnil].
    + unfold validate in Hval. case_bool_decide; [|done]. simpl in Hval.
      unfold validate_field in Hval. simpl in Hval. rewrite Hv in Hval. simpl in Hval.
      rewrite He in Hval. simpl in Hval. by injection Hval as <-.
  - intros (v & e & -> & He & ->). unfold validate.
    rewrite bool_decide_eq_true_2.
    + simpl. unfold validate_field. simpl. rewrite lookup_singleton_eq. simpl.
      by rewrite He.
    + rewrite dom_singleton_L. simpl. set_solver.
Qed.

(** What [SERVICE_PROGRAM_SCHEMA] hands to the callback: the program, a
    string, and the option fields exactly as they were given, with no
    [None] among them. *)
Lemma validate_SERVICE_PROGRAM_SCHEMA payload d :
  NoDup [ATTR_ENTITY_ID; ATTR_PROGRAM; ATTR_OPTION_KEY; ATTR_OPTION_VALUE; ATTR_OPTION_UNIT] →
  validate SERVICE_PROGRAM_SCHEMA payload = Some d →
  (∃ p, payload !! ATTR_PROGRAM = Some (VStr p) ∧ d !! ATTR_PROGRAM = Some (VStr p)) ∧
  ∀ k, k ∈ [ATTR_OPTION_KEY; ATTR_OPTION_VALUE; ATTR_OPTION_UNIT] →
       d !! k = payload !! k ∧ payload !! k ≠ Some VNone.
Proof.
  intros Hnd Hval.
  destruct (validate_dom _ _ _ Hval) as [Hdom _].
  unfold validate in Hval. case_bool_decide; [|done].
  assert (∀ m v x, (m, v) ∈ SERVICE_PROGRAM_SCHEMA → payload !! marker_key m = Some x →
            ∃ x', run_validator v x = Some x' ∧ d !! marker_key m = Some x') as Hlook.
  { intros m v x. by apply validate_fold_lookup. }
  assert (∀ k, d !! k = None ↔ payload !! k = None) as Hnone.
  { intros k. rewrite <- !not_elem_of_dom. by rewrite Hdom. }
  split.
  - destruct (validate_required SERVICE_PROGRAM_SCHEMA payload d ATTR_PROGRAM vol_str)
      as [p' Hp'].
    { unfold validate. by rewrite bool_decide_eq_true_2. }
    { right. left. }
    destruct (payload !! ATTR_PROGRAM) as [x|] eqn:Hx.
    + destruct (Hlook (Required ATTR_PROGRAM) vol_str x) as (x' & Hrun & Hdx);
        [right; left | done |].
      destruct x; simpl in Hrun; try done. injection Hrun as <-. by eexists.
    + apply Hnone in Hx. simpl in *. congruence.
  - intros k Hk.
    assert (∃ v, (Optional k, v) ∈ SERVICE_PROGRAM_SCHEMA ∧ (v = vol_str ∨ v = vol_Any_int_str))
      as (v & Hin & Hv).
    { rewrite !elem_of_cons in Hk. destruct Hk as [->|[->|[->|Hk]]].
      - exists vol_str. split; [do 2 right; left | by left].
      - exists vol_Any_int_str. split; [do 3 right; left | by right].
      - exists vol_str. split; [do 4 right; left | by left].
      - by apply elem_of_nil in Hk. }
    destruct (payload !! k) as [x|] eqn:Hx.
    + destruct (Hlook (Optional k) v x Hin Hx) as (x' & Hrun & Hdx). simpl in Hdx.
      destruct Hv as [-> | ->]; destruct x; simpl in Hrun; try done;
        injection Hrun as <-; by split.
    + split; [by apply Hnone | done].
Qed.

End Schemas.

Section Dispatch.
Context {consts : Const} {vendor : Vendor} {host : Host}.

Lemma _async_service_program_resolved call method h sessions program eid a :
  hass_data h = Some sessions →
  data call !! ATTR_PROGRAM = Some program →
  data call !! ATTR_ENTITY_ID = Some eid →
  search_sessions (PyDict.values sessions) eid = Some a →
  let k := get_or_None (data call) ATTR_OPTION_KEY in
  let v := get_or_None (data call) ATTR_OPTION_VALUE in
  let u := get_or_None (data call) ATTR_OPTION_UNIT in
  let base : pyobj := <[ATTR_VALUE := v]> (<[ATTR_KEY := k]> ∅) in
  let options :=
    if is_not_None k && is_not_None v
    then AOptions [ if is_not_None u then <[ATTR_UNIT := u]> base else base ]
    else AVal VNone in
  let h1 := with_log_records (log_records h ++ [options_record options]) h in
  _async_service_program call method h =
    match getattr_appliance method with
    | Ok m => async_add_executor_job (JCall a m [AVal program; options]) h1
    | Raise e => (Raise e, h1)
    end.
Proof.
  intros Hd Hp He Hs. simpl. unfold _async_service_program.
  rewrite (bind_Ok _ _ _ _ _ (getitem_Some _ _ _ _ Hp)).
  rewrite (bind_Ok _ _ _ _ _ (getitem_Some _ _ _ _ He)).
  erewrite bind_Ok; [|reflexivity].
  erewrite bind_Ok; [|by eapply _get_appliance_by_entity_id_found].
  cbv beta iota. unfold mbind, M_bind.
  by destruct (getattr_appliance method).
Qed.

(** X7: select and start, end to end.  For a request accepted by the
    program schema whose entity resolves, the vendor method is called
    with the program as given and with options that are [None] exactly
    when the option key or the option value is absent from the request;
    otherwise the one option dict carries key and value as given (a
    number stays a number) and a unit exactly when the request has one. *)
Theorem program_request_options f name m payload d program eid a h sessions :
  (f, name) ∈ [ (ServiceSelect, SERVICE_SELECT); (ServiceStart, SERVICE_START) ] →
  getattr_appliance name = Ok m →
  NoDup [ATTR_ENTITY_ID; ATTR_PROGRAM; ATTR_OPTION_KEY; ATTR_OPTION_VALUE; ATTR_OPTION_UNIT] →
  NoDup [ATTR_UNIT; ATTR_VALUE; ATTR_KEY] →
  validate (handler_schema f) payload = Some d →
  payload !! ATTR_PROGRAM = Some program →
  hass_data h = Some sessions →
  d !! ATTR_ENTITY_ID = Some eid →
  search_sessions (PyDict.values sessions) eid = Some a →
  ∃ options,
    executor_jobs (call_handler f {| data := d |} h).2 =
      executor_jobs h ++ [JCall a m [AVal program; options]] ∧
    (options = AVal VNone ↔
       payload !! ATTR_OPTION_KEY = None ∨ payload !! ATTR_OPTION_VALUE = None) ∧
    (∀ k v, payload !! ATTR_OPTION_KEY = Some k → payload !! ATTR_OPTION_VALUE = Some v →
       ∃ o, options = AOptions [o] ∧ o !! ATTR_KEY = Some k ∧ o !! ATTR_VALUE = Some v ∧
            o !! ATTR_UNIT = payload !! ATTR_OPTION_UNIT ∧
            ∀ i, is_Some (o !! i) → i ∈ [ATTR_KEY; ATTR_VALUE; ATTR_UNIT]).
Proof.
  intros Hf Hm Hschema Hfields Hval Hprog Hd He Hs.
  assert (call_handler f {| data := d |} = _async_service_program {| data := d |} name
          ∧ handler_schema f = SERVICE_PROGRAM_SCHEMA) as [-> Hsch].
  { rewrite !elem_of_cons in Hf.
    destruct Hf as [[= -> ->]|[[= -> ->]|Hf]]; [done..|]. by apply elem_of_nil in Hf. }
  rewrite Hsch in Hval.
  destruct (validate_SERVICE_PROGRAM_SCHEMA _ _ Hschema Hval) as [(p & Hp & Hdp) Hopt].
  rewrite Hprog in Hp. injection Hp as ->.
  destruct (Hopt ATTR_OPTION_KEY) as [Hk Hkn]; [left|].
  destruct (Hopt ATTR_OPTION_VALUE) as [Hv Hvn]; [right; left|].
  destruct (Hopt ATTR_OPTION_UNIT) as [Hu Hun]; [do 2 right; left|].
  apply NoDup_cons in Hfields as [Hu1 Hfields]. apply NoDup_cons in Hfields as [Hv1 _].
  apply not_elem_of_cons in Hu1 as [Huv Hu1]. apply not_elem_of_cons in Hu1 as [Huk _].
  apply not_elem_of_cons in Hv1 as [Hvk _].
  rewrite (_async_service_program_resolved {| data := d |} name h sessions (VStr p) eid a
             Hd Hdp He Hs).
  rewrite Hm. simpl. unfold get_or_None. rewrite Hk, Hv, Hu.
  eexists. split; [reflexivity|].
  destruct (payload !! ATTR_OPTION_KEY) as [k|] eqn:Hpk; simpl.
  2: { split; [split; [by left | done]|]. by intros k v [=]. }
  destruct (payload !! ATTR_OPTION_VALUE) as [v|] eqn:Hpv; simpl.
  2: { rewrite andb_false_r. split; [split; [by right | done]|]. by intros k' v' _ [=]. }
  assert (is_not_None k = true) as -> by (destruct k; done).
  assert (is_not_None v = true) as -> by (destruct v; done).
  simpl. split.
  { split; [done | by intros [?|?]]. }
  intros k' v' [= <-] [= <-]. eexists. split; [reflexivity|].
  destruct (payload !! ATTR_OPTION_UNIT) as [u|] eqn:Hpu; simpl.
  - assert (is_not_None u = true) as -> by (destruct u; done).
    rewrite lookup_insert_ne, lookup_insert_ne, !lookup_insert_eq by done.
    rewrite lookup_insert_ne, lookup_insert_eq by done.
    repeat split. intros i. rewrite !lookup_insert, lookup_empty.
    repeat case_decide; subst; rewrite !elem_of_cons; intros []; by auto.
  - rewrite lookup_insert_ne, !lookup_insert_eq by done.
    rewrite lookup_insert_ne, lookup_insert_ne, lookup_empty by done.
    repeat split. intros i. rewrite !lookup_insert, lookup_empty.
    repeat case_decide; subst; rewrite !elem_of_cons; intros []; by auto.
Qed.

(** X8: the dispatcher catches nothing.  For a request of any action
    kind accepted by its schema whose entity resolves (and, for select and
    start, whose service name is a vendor method), the service makes
    exactly one vendor call, on the resolved appliance; what the service
    returns or raises is what that call returns or raises; and it logs at
    most debug records. *)
Theorem dispatch_resolved_forwards_outcome f payload d eid a h sessions :
  validate (handler_schema f) payload = Some d →
  hass_data h = Some sessions →
  d !! ATTR_ENTITY_ID = Some eid →
  search_sessions (PyDict.values sessions) eid = Some a →
  (∀ name, (f, name) ∈ [ (ServiceSelect, SERVICE_SELECT); (ServiceStart, SERVICE_START) ] →
     ∃ m, getattr_appliance name = Ok m) →
  ∃ m arguments debug,
    let j := JCall a m arguments in
    Forall (λ r, levelname r = DEBUG) debug ∧
    call_handler f {| data := d |} h =
      (sdk_reply (executor_jobs h) j,
       with_executor_jobs (executor_jobs h ++ [j])
         (with_log_records (log_records h ++ debug) h)).
Proof.
  intros Hval Hd He Hs Hattr.
  assert (with_log_records (log_records h ++ []) h = h) as Hnil.
  { rewrite app_nil_r. by destruct h. }
  assert (∀ method m, validate SERVICE_SETTING_SCHEMA payload = Some d →
            getattr_appliance method = Ok m →
            ∃ arguments, _async_service_key_value {| data := d |} method h =
              (sdk_reply (executor_jobs h) (JCall a m arguments),
               with_executor_jobs (executor_jobs h ++ [JCall a m arguments])
                 (with_log_records (log_records h ++ []) h))) as Hkv.
  { intros method m Hs' Hm.
    destruct (validate_required _ _ _ ATTR_KEY vol_str Hs') as [k Hk]; [right; left|].
    destruct (validate_required _ _ _ ATTR_VALUE vol_Coerce_str Hs') as [v Hv];
      [do 2 right; left|].
    exists [AVal k; AVal v]. rewrite Hnil.
    by apply (_async_service_key_value_found {| data := d |} method m h sessions k v eid a). }
  assert (∀ command, ∃ arguments, _async_service_command {| data := d |} command h =
              (sdk_reply (executor_jobs h) (JCall a execute_command arguments),
               with_executor_jobs (executor_jobs h ++ [JCall a execute_command arguments])
                 (with_log_records (log_records h ++ []) h))) as Hcmd.
  { intros command. exists [AVal (VStr command)]. rewrite Hnil.
    by apply (_async_service_command_found {| data := d |} command h sessions eid a). }
  assert (∀ name m, validate SERVICE_PROGRAM_SCHEMA payload = Some d →
            getattr_appliance name = Ok m →
            ∃ arguments debug, Forall (λ r, levelname r = DEBUG) debug ∧
              _async_service_program {| data := d |} name h =
              (sdk_reply (executor_jobs h) (JCall a m arguments),
               with_executor_jobs (executor_jobs h ++ [JCall a m arguments])
                 (with_log_records (log_records h ++ debug) h))) as Hprog.
  { intros name m Hs' Hm.
    destruct (validate_required _ _ _ ATTR_PROGRAM vol_str Hs') as [p Hp]; [right; left|].
    rewrite (_async_service_program_resolved {| data := d |} name h sessions p eid a
               Hd Hp He Hs).
    rewrite Hm. eexists _, [_]. split; [|reflexivity]. by repeat constructor. }
  destruct f; simpl in Hval; unfold call_handler.
  - destruct (Hkv "set_options_active_program" set_options_active_program Hval eq_refl)
      as [arguments Hrun]. by exists set_options_active_program, arguments, [].
  - destruct (Hkv "set_options_selected_program" set_options_selected_program Hval eq_refl)
      as [arguments Hrun]. by exists set_options_selected_program, arguments, [].
  - destruct (Hcmd BSH_PAUSE) as [arguments Hrun]. by exists execute_command, arguments, [].
  - destruct (Hcmd BSH_RESUME) as [arguments Hrun]. by exists execute_command, arguments, [].
  - destruct (Hattr SERVICE_SELECT) as [m Hm]; [left|].
    destruct (Hprog SERVICE_SELECT m Hval Hm) as (arguments & debug & Hdebug & Hrun).
    by exists m, arguments, debug.
  - destruct (Hkv "set_setting" set_setting Hval eq_refl) as [arguments Hrun].
    by exists set_setting, arguments, [].
  - destruct (Hattr SERVICE_START) as [m Hm]; [right; left|].
    destruct (Hprog SERVICE_START m Hval Hm) as (arguments & debug & Hdebug & Hrun).
    by exists m, arguments, debug.
Qed.

(** X9: the vendor method of a program service is looked up by the
    service's name before anything is scheduled.  If the vendor handle has
    no attribute of that name, select and start raise the
    [AttributeError] after logging the options, and make no vendor call. *)
Theorem program_service_unknown_method f name call program eid a e h sessions :
  (f, name) ∈ [ (ServiceSelect, SERVICE_SELECT); (ServiceStart, SERVICE_START) ] →
  getattr_appliance name = Raise e →
  hass_data h = Some sessions →
  data call !! ATTR_PROGRAM = Some program →
  data call !! ATTR_ENTITY_ID = Some eid →
  search_sessions (PyDict.values sessions) eid = Some a →
  let r := call_handler f call h in
  r.1 = Raise (AttributeError name) ∧
  executor_jobs r.2 = executor_jobs h ∧
  ∃ options, log_records r.2 = log_records h ++ [options_record options].
Proof.
  intros Hf Hattr Hd Hp He Hs. simpl.
  assert (call_handler f call = _async_service_program call name) as ->.
  { rewrite !elem_of_cons in Hf.
    destruct Hf as [[= -> ->]|[[= -> ->]|Hf]]; [done..|]. by apply elem_of_nil in Hf. }
  rewrite (_async_service_program_resolved call name h sessions program eid a Hd Hp He Hs).
  assert (e = AttributeError name) as ->.
  { unfold getattr_appliance in Hattr. repeat case_decide; congruence. }
  rewrite Hattr. simpl. split; [done|]. split; [done|]. by eexists.
Qed.

End Dispatch.

Module PyDictMore.
Import PyDict.
Section Facts.
Context {V : Type}.
Implicit Types (d : PyDict.t V) (k : string) (v : V).

Lemma set_same k v d : get k d = Some v → set k v d = d.
Proof.
  induction d as [|[k0 v0] d IH]; simpl; [done|].
  destruct (decide (k0 = k)) as [->|Hne]; [by intros [= ->]|].
  intros Hget. by rewrite IH.
Qed.

Lemma set_set k v w d : set k v (set k w d) = set k v d.
Proof.
  induction d as [|[k0 v0] d IH]; simpl.
  - by rewrite decide_True.
  - destruct (decide (k0 = k)) as [->|Hne]; simpl.
    + by rewrite decide_True.
    + by rewrite decide_False, IH.
Qed.

Lemma keys_set_present k v d : is_Some (get k d) → keys (set k v d) = keys d.
Proof.
  induction d as [|[k0 v0] d IH]; simpl; [by intros []|].
  destruct (decide (k0 = k)) as [->|Hne]; [done|].
  intros Hget. unfold keys in *. simpl. f_equal. by apply IH.
Qed.

Lemma keys_set_fresh k v d : get k d = None → keys (set k v d) = keys d ++ [k].
Proof.
  induction d as [|[k0 v0] d IH]; simpl; [done|].
  destruct (decide (k0 = k)) as [->|Hne]; [done|].
  intros Hget. unfold keys in *. simpl. f_equal. by apply IH.
Qed.

Lemma remove_set_fresh k v d : get k d = None → remove k (set k v d) = d.
Proof.
  induction d as [|[k0 v0] d IH]; simpl.
  - by rewrite decide_True.
  - destruct (decide (k0 = k)) as [->|Hne]; simpl; [done|].
    intros Hget. by rewrite decide_False, IH.
Qed.

Lemma get_remove_other k k' d : k ≠ k' → get k' (remove k d) = get k' d.
Proof.
  intros Hne. induction d as [|[k0 v0] d IH]; simpl; [done|].
  destruct (decide (k0 = k)) as [->|Hne0]; simpl.
  - by rewrite decide_False.
  - by rewrite IH.
Qed.

Lemma get_set_other k k' v d : k ≠ k' → get k' (set k v d) = get k' d.
Proof.
  intros Hne. induction d as [|[k0 v0] d IH]; simpl.
  - by rewrite decide_False.
  - destruct (decide (k0 = k)) as [->|Hne0]; simpl.
    + by rewrite !decide_False.
    + by rewrite IH.
Qed.

Lemma get_set_this k v d : get k (set k v d) = Some v.
Proof.
  induction d as [|[k0 v0] d IH]; simpl.
  - by rewrite decide_True.
  - destruct (decide (k0 = k)) as [->|Hne]; simpl.
    + by rewrite decide_True.
    + by rewrite decide_False.
Qed.

End Facts.
End PyDictMore.

Section ModuleSetup.
Context {consts : Const}.

(** The services map after registering the callbacks of [l] in order. *)
Lemma register_all_lookup_other (l : list Handler) (m : gmap (string * string) Service) key :
  key ∉ (λ f, (DOMAIN, service_name f)) <$> l →
  foldl (λ m f, <[(DOMAIN, service_name f) :=
                    {| service_func := f; service_schema := handler_schema f |}]> m) m l
    !! key = m !! key.
Proof.
  revert m. induction l as [|g l IH]; intros m Hkey; simpl; [done|].
  rewrite fmap_cons, not_elem_of_cons in Hkey. destruct Hkey as [Hne Hkey].
  rewrite IH by done. by rewrite lookup_insert_ne.
Qed.

Lemma register_all_lookup (l : list Handler) (m : gmap (string * string) Service) f :
  NoDup (service_name <$> l) →
  f ∈ l →
  foldl (λ m f, <[(DOMAIN, service_name f) :=
                    {| service_func := f; service_schema := handler_schema f |}]> m) m l
    !! (DOMAIN, service_name f) =
  Some {| service_func := f; service_schema := handler_schema f |}.
Proof.
  revert m. induction l as [|g l IH]; intros m Hnd Hin; simpl.
  - by apply elem_of_nil in Hin.
  - rewrite fmap_cons in Hnd. apply NoDup_cons in Hnd as [Hfresh Hnd].
    destruct (decide (f ∈ l)) as [Hl|Hl]; [by apply IH|].
    apply elem_of_cons in Hin as [->|Hin]; [|done].
    rewrite register_all_lookup_other; [by rewrite lookup_insert_eq|].
    intros Hkey. apply list_elem_of_fmap in Hkey as (g' & [= Heq] & Hg').
    apply Hfresh. rewrite Heq. by apply list_elem_of_fmap_2.
Qed.

Lemma async_setup_configured_run (config : ConfigType) conf client_id client_secret h :
  config !! DOMAIN = Some conf →
  conf !! CONF_CLIENT_ID = Some client_id →
  conf !! CONF_CLIENT_SECRET = Some client_secret →
  async_setup config h =
    (Ok true,
     with_hass_services
       (foldl (λ m f, <[(DOMAIN, service_name f) :=
                         {| service_func := f; service_schema := handler_schema f |}]> m)
          (hass_services h) all_handlers)
       (with_oauth_implementations
          (oauth_implementations h ++
           [ {| impl_domain := DOMAIN; impl_client_id := client_id;
                impl_client_secret := client_secret;
                impl_authorize_url := OAUTH2_AUTHORIZE; impl_token_url := OAUTH2_TOKEN |} ])
          (with_hass_data (Some []) h))).
Proof.
  intros Hc Hid Hsecret. unfold async_setup.
  erewrite bind_Ok; [|reflexivity]. rewrite Hc.
  unfold conf_getitem. rewrite Hid, Hsecret.
  repeat (erewrite bind_Ok; [|reflexivity]). reflexivity.
Qed.

(** X10: setup always starts from an empty registry.  Whatever the
    configuration and whether setup returns or raises, the registry slot
    holds the empty map afterwards: sessions present before are dropped. *)
Theorem async_setup_resets_registry (config : ConfigType) h :
  hass_data (async_setup config h).2 = Some [].
Proof.
  unfold async_setup. erewrite bind_Ok; [|reflexivity].
  destruct (config !! DOMAIN) as [conf|]; [|done].
  unfold conf_getitem.
  destruct (conf !! CONF_CLIENT_ID) as [client_id|]; [|done].
  erewrite bind_Ok; [|reflexivity].
  destruct (conf !! CONF_CLIENT_SECRET) as [client_secret|]; [|done].
  repeat (erewrite bind_Ok; [|reflexivity]). reflexivity.
Qed.

(** X11: a configuration that names the module but lacks a credential
    makes setup raise [KeyError] for the first missing credential; by then
    only the registry slot was written: no OAuth implementation and no
    service has been registered. *)
Theorem async_setup_missing_credential (config : ConfigType) conf h :
  config !! DOMAIN = Some conf →
  conf !! CONF_CLIENT_ID = None ∨ conf !! CONF_CLIENT_SECRET = None →
  let missing :=
    if decide (conf !! CONF_CLIENT_ID = None) then CONF_CLIENT_ID else CONF_CLIENT_SECRET in
  async_setup config h = (Raise (KeyError missing), with_hass_data (Some []) h).
Proof.
  intros Hc Hmissing. simpl. unfold async_setup.
  erewrite bind_Ok; [|reflexivity]. rewrite Hc. unfold conf_getitem.
  destruct (conf !! CONF_CLIENT_ID) as [client_id|] eqn:Hid.
  - rewrite decide_False by done. erewrite bind_Ok; [|reflexivity].
    destruct Hmissing as [?|Hsecret]; [done|]. by rewrite Hsecret.
  - by rewrite decide_True.
Qed.

(** X12: with credentials and pairwise distinct service names, setup
    returns [True] having registered each of the seven callbacks under
    its own name with its own schema, and the OAuth implementation built
    from the credentials; every other service of the host is as before,
    and setup makes no vendor call and logs nothing. *)
Theorem async_setup_registers_services (config : ConfigType) conf client_id client_secret h :
  config !! DOMAIN = Some conf →
  conf !! CONF_CLIENT_ID = Some client_id →
  conf !! CONF_CLIENT_SECRET = Some client_secret →
  NoDup (service_name <$> all_handlers) →
  let r := async_setup config h in
  r.1 = Ok true ∧
  (∀ f, hass_services r.2 !! (DOMAIN, service_name f) =
        Some {| service_func := f; service_schema := handler_schema f |}) ∧
  (∀ domain service,
     domain ≠ DOMAIN ∨ service ∉ service_name <$> all_handlers →
     hass_services r.2 !! (domain, service) = hass_services h !! (domain, service)) ∧
  oauth_implementations r.2 =
    oauth_implementations h ++
    [ {| impl_domain := DOMAIN; impl_client_id := client_id;
         impl_client_secret := client_secret;
         impl_authorize_url := OAUTH2_AUTHORIZE; impl_token_url := OAUTH2_TOKEN |} ] ∧
  executor_jobs r.2 = executor_jobs h ∧
  log_records r.2 = log_records h.
Proof.
  intros Hc Hid Hsecret Hnd. cbv zeta.
  rewrite (async_setup_configured_run _ _ _ _ _ Hc Hid Hsecret).
  cbn -[foldl all_handlers].
  split; [done|]. split; [|split; [|done]].
  - intros f. apply register_all_lookup; [done|].
    destruct f; unfold all_handlers; rewrite !elem_of_cons; by auto 10.
  - intros domain service Hother. apply register_all_lookup_other.
    intros Hkey. apply list_elem_of_fmap in Hkey as (g & [= -> ->] & Hg).
    destruct Hother as [?|Hother]; [done|]. apply Hother. by apply list_elem_of_fmap_2.
Qed.

End ModuleSetup.

Section PollCycle.
Context {consts : Const} {vendor : Vendor}.

Lemma initialize_loop_all_ok devs h :
  (∀ i dd, devs !! i = Some dd →
     sdk_reply (executor_jobs h ++ (JInitialize ∘ device <$> take i devs))
       (JInitialize (device dd)) = Ok tt) →
  for_each devs (λ device_dict, async_add_executor_job (JInitialize (device device_dict))) h =
    (Ok tt, with_executor_jobs (executor_jobs h ++ (JInitialize ∘ device <$> devs)) h).
Proof.
  revert h. induction devs as [|dd devs IH]; intros h Hok; simpl.
  - rewrite app_nil_r. by destruct h.
  - unfold mbind, M_bind. unfold async_add_executor_job at 1.
    pose proof (Hok 0%nat dd eq_refl) as Hhead. simpl in Hhead.
    rewrite app_nil_r in Hhead. rewrite Hhead.
    rewrite IH.
    + simpl. by rewrite <- app_assoc.
    + intros i dd' Hi. simpl. rewrite <- app_assoc. apply (Hok (S i) dd' Hi).
Qed.

Lemma initialize_loop_fails pre dd post e h :
  (∀ i dd', pre !! i = Some dd' →
     sdk_reply (executor_jobs h ++ (JInitialize ∘ device <$> take i pre))
       (JInitialize (device dd')) = Ok tt) →
  sdk_reply (executor_jobs h ++ (JInitialize ∘ device <$> pre)) (JInitialize (device dd)) =
    Raise e →
  for_each (pre ++ dd :: post)
    (λ device_dict, async_add_executor_job (JInitialize (device device_dict))) h =
    (Raise e,
     with_executor_jobs (executor_jobs h ++ (JInitialize ∘ device <$> pre ++ [dd])) h).
Proof.
  revert h. induction pre as [|dd0 pre IH]; intros h Hok Hfail; simpl.
  - unfold mbind, M_bind. unfold async_add_executor_job at 1.
    simpl in Hfail. rewrite app_nil_r in Hfail. by rewrite Hfail.
  - unfold mbind, M_bind. unfold async_add_executor_job at 1.
    pose proof (Hok 0%nat dd0 eq_refl) as Hhead. simpl in Hhead.
    rewrite app_nil_r in Hhead. rewrite Hhead.
    rewrite IH.
    + simpl. by rewrite <- app_assoc.
    + intros i dd' Hi. simpl. rewrite <- app_assoc. apply (Hok (S i) dd' Hi).
    + simpl. rewrite <- app_assoc. exact Hfail.
Qed.

Lemma update_all_devices_body_registered entry h sessions hc_api :
  hass_data h = Some sessions →
  PyDict.get (entry_id entry) sessions = Some hc_api →
  update_all_devices_body entry h =
    try_except_HTTPError (update_all_devices_try entry hc_api)
      (λ status_code, _LOGGER_warning "Cannot update devices: %s" [AVal (VInt status_code)]) h.
Proof.
  intros Hd Hget. unfold update_all_devices_body.
  rewrite (bind_Ok _ _ _ _ _ (hass_data_DOMAIN_Some _ _ Hd)). by rewrite Hget.
Qed.

(** X13: a poll cycle in which every vendor call succeeds replaces the
    account's device list by the fetched one and then initialises every
    fetched device exactly once, in list order; it returns normally, logs
    nothing and changes nothing else. *)
Theorem poll_cycle_all_calls_succeed entry h sessions hc_api :
  hass_data h = Some sessions →
  PyDict.get (entry_id entry) sessions = Some hc_api →
  let fetch := JGetDevices (entry_id entry) in
  let fetched := sdk_appliances (executor_jobs h) (entry_id entry) in
  sdk_reply (executor_jobs h) fetch = Ok tt →
  (∀ i dd, fetched !! i = Some dd →
     sdk_reply (executor_jobs h ++ fetch :: (JInitialize ∘ device <$> take i fetched))
       (JInitialize (device dd)) = Ok tt) →
  update_all_devices_body entry h =
    (Ok tt,
     with_hass_data (Some (PyDict.set (entry_id entry) {| devices := fetched |} sessions))
       (with_executor_jobs
          (executor_jobs h ++ fetch :: (JInitialize ∘ device <$> fetched)) h)).
Proof.
  intros Hd Hget fetch fetched Hfetch Hinit.
  rewrite (update_all_devices_body_registered _ _ _ _ Hd Hget).
  unfold try_except_HTTPError, update_all_devices_try.
  pose proof (get_devices_run (entry_id entry) hc_api h sessions hc_api Hd Hget) as Hrun.
  simpl in Hrun. fold fetch in Hrun. rewrite Hfetch in Hrun.
  rewrite (bind_Ok _ _ _ _ _ Hrun). simpl.
  rewrite initialize_loop_all_ok.
  - simpl. rewrite <- app_assoc. by destruct h.
  - intros i dd Hi. simpl. rewrite <- app_assoc. by apply Hinit.
Qed.

(** X14: a poll cycle ends at the first device whose initialisation
    fails.  The devices before it have been initialised, those after it
    are not, and the account's device list is already the fetched one.  A
    transport failure is logged as a warning and the cycle returns
    normally; any other exception leaves the cycle unlogged. *)
Theorem poll_cycle_ends_at_first_failure entry h sessions hc_api pre dd post e :
  hass_data h = Some sessions →
  PyDict.get (entry_id entry) sessions = Some hc_api →
  let fetch := JGetDevices (entry_id entry) in
  let fetched := sdk_appliances (executor_jobs h) (entry_id entry) in
  sdk_reply (executor_jobs h) fetch = Ok tt →
  fetched = pre ++ dd :: post →
  (∀ i dd', pre !! i = Some dd' →
     sdk_reply (executor_jobs h ++ fetch :: (JInitialize ∘ device <$> take i pre))
       (JInitialize (device dd')) = Ok tt) →
  sdk_reply (executor_jobs h ++ fetch :: (JInitialize ∘ device <$> pre))
    (JInitialize (device dd)) = Raise e →
  let after :=
    with_hass_data (Some (PyDict.set (entry_id entry) {| devices := fetched |} sessions))
      (with_executor_jobs
         (executor_jobs h ++ fetch :: (JInitialize ∘ device <$> pre ++ [dd])) h) in
  update_all_devices_body entry h =
    match e with
    | HTTPError status =>
        (Ok tt, with_log_records (log_records h ++ [cannot_update_record status]) after)
    | _ => (Raise e, after)
    end.
Proof.
  intros Hd Hget fetch fetched Hfetch Hsplit Hpre Hfail after.
  rewrite (update_all_devices_body_registered _ _ _ _ Hd Hget).
  unfold try_except_HTTPError, update_all_devices_try.
  pose proof (get_devices_run (entry_id entry) hc_api h sessions hc_api Hd Hget) as Hrun.
  simpl in Hrun. fold fetch fetched in Hrun. rewrite Hfetch in Hrun.
  rewrite (bind_Ok _ _ _ _ _ Hrun). simpl. rewrite Hsplit.
  rewrite (initialize_loop_fails pre dd post e).
  - assert (with_executor_jobs _ _ = after) as ->.
    { unfold after. simpl. rewrite <- app_assoc, Hsplit. by destruct h. }
    by destruct e.
  - intros i dd' Hi. simpl. rewrite <- app_assoc. by apply Hpre.
  - simpl. rewrite <- app_assoc. exact Hfail.
Qed.

(** X15: when the device-list fetch itself fails, no device is
    initialised and the registry is untouched; a transport failure is
    logged and swallowed, any other exception is raised to the caller. *)
Theorem poll_cycle_fetch_fails entry h sessions hc_api e :
  hass_data h = Some sessions →
  PyDict.get (entry_id entry) sessions = Some hc_api →
  let fetch := JGetDevices (entry_id entry) in
  sdk_reply (executor_jobs h) fetch = Raise e →
  let after := with_executor_jobs (executor_jobs h ++ [fetch]) h in
  update_all_devices_body entry h =
    match e with
    | HTTPError status =>
        (Ok tt, with_log_records (log_records h ++ [cannot_update_record status]) after)
    | _ => (Raise e, after)
    end.
Proof.
  intros Hd Hget fetch Hfetch after.
  rewrite (update_all_devices_body_registered _ _ _ _ Hd Hget).
  unfold try_except_HTTPError, update_all_devices_try.
  pose proof (get_devices_run (entry_id entry) hc_api h sessions hc_api Hd Hget) as Hrun.
  simpl in Hrun. fold fetch in Hrun. rewrite Hfetch in Hrun.
  rewrite (bind_Raise _ _ _ _ _ Hrun). by destruct e.
Qed.

Lemma update_all_devices_body_unregistered entry h :
  (hass_data h ≫= PyDict.get (entry_id entry)) = None →
  let key := if decide (hass_data h = None) then DOMAIN else entry_id entry in
  update_all_devices_body entry h = (Raise (KeyError key), h).
Proof.
  intros Hnone. simpl. unfold update_all_devices_body.
  destruct (hass_data h) as [sessions|] eqn:Hd; simpl in Hnone.
  - rewrite (bind_Ok _ _ _ _ _ (hass_data_DOMAIN_Some _ _ Hd)). by rewrite Hnone.
  - erewrite bind_Raise; [done|]. unfold hass_data_DOMAIN. by rewrite Hd.
Qed.

(** X16: polling an account that is not in the registry raises
    [KeyError], for the registry slot if it is missing and else for the
    entry id, without any vendor call, log record or state change. *)
Theorem poll_unregistered_account entry h :
  (hass_data h ≫= PyDict.get (entry_id entry)) = None →
  let key := if decide (hass_data h = None) then DOMAIN else entry_id entry in
  update_all_devices_body entry h = (Raise (KeyError key), h).
Proof.
  intros Hnone. simpl. unfold update_all_devices_body.
  destruct (hass_data h) as [sessions|] eqn:Hd; simpl in Hnone.
  - rewrite (bind_Ok _ _ _ _ _ (hass_data_DOMAIN_Some _ _ Hd)). by rewrite Hnone.
  - erewrite bind_Raise; [done|]. unfold hass_data_DOMAIN. by rewrite Hd.
Qed.

(** X17: what a trigger of the poller for one account never does.  Run
    or throttled, returning or raising, it leaves the set and order of
    registered accounts, every other account's session and throttle
    stamp, the registered services and OAuth implementations and the
    clock as they were, and the executor trace and the log only grow. *)
Theorem poller_frame entry h :
  let h' := (update_all_devices entry h).2 in
  (PyDict.keys <$> hass_data h') = (PyDict.keys <$> hass_data h) ∧
  (∀ other, other ≠ entry_id entry →
     (hass_data h' ≫= PyDict.get other) = (hass_data h ≫= PyDict.get other) ∧
     throttle h' !! other = throttle h !! other) ∧
  hass_services h' = hass_services h ∧
  oauth_implementations h' = oauth_implementations h ∧
  utcnow h' = utcnow h ∧
  executor_jobs h `prefix_of` executor_jobs h' ∧
  log_records h `prefix_of` log_records h'.
Proof.
  assert (∀ h0,
    let h' := (update_all_devices_body entry h0).2 in
    (PyDict.keys <$> hass_data h') = (PyDict.keys <$> hass_data h0) ∧
    (∀ other, other ≠ entry_id entry →
       (hass_data h' ≫= PyDict.get other) = (hass_data h0 ≫= PyDict.get other)) ∧
    throttle h' = throttle h0 ∧
    hass_services h' = hass_services h0 ∧
    oauth_implementations h' = oauth_implementations h0 ∧
    utcnow h' = utcnow h0 ∧
    executor_jobs h0 `prefix_of` executor_jobs h' ∧
    log_records h0 `prefix_of` log_records h') as Hbody.
  { intros h0. simpl.
    destruct (hass_data h0 ≫= PyDict.get (entry_id entry)) as [hc_api|] eqn:Hreg.
    - destruct (hass_data h0) as [sessions|] eqn:Hd; [|done]. simpl in Hreg.
      destruct (update_all_devices_body_run entry h0 sessions hc_api Hd Hreg)
        as (js & logs & sessions' & Hstate & _ & Hkeep & Hrefresh & _).
      rewrite Hstate. simpl.
      assert (sessions' = sessions ∨
              sessions' = PyDict.set (entry_id entry)
                {| devices := sdk_appliances (executor_jobs h0) (entry_id entry) |} sessions)
        as Hcases.
      { destruct (decide (sdk_reply (executor_jobs h0) (JGetDevices (entry_id entry)) = Ok tt));
          [right; by apply Hrefresh | left; by apply Hkeep]. }
      repeat split; try done; try by eexists.
      + destruct Hcases as [-> | ->]; [done|].
        by rewrite PyDictMore.keys_set_present by (by eexists).
      + intros other Hne. destruct Hcases as [-> | ->]; [done|].
        by rewrite PyDictMore.get_set_other.
    - rewrite (update_all_devices_body_unregistered entry h0 Hreg). simpl.
      repeat split; done. }
  simpl. unfold update_all_devices, Throttle.
  do 2 (erewrite bind_Ok; [|reflexivity]).
  assert (∀ h0, h0 = with_throttle (<[entry_id entry := utcnow h]> (throttle h)) h →
    let h' := (update_all_devices_body entry h0).2 in
    (PyDict.keys <$> hass_data h') = (PyDict.keys <$> hass_data h) ∧
    (∀ other, other ≠ entry_id entry →
       (hass_data h' ≫= PyDict.get other) = (hass_data h ≫= PyDict.get other) ∧
       throttle h' !! other = throttle h !! other) ∧
    hass_services h' = hass_services h ∧
    oauth_implementations h' = oauth_implementations h ∧
    utcnow h' = utcnow h ∧
    executor_jobs h `prefix_of` executor_jobs h' ∧
    log_records h `prefix_of` log_records h') as Hrun.
  { intros h0 ->. simpl.
    destruct (Hbody (with_throttle (<[entry_id entry := utcnow h]> (throttle h)) h))
      as (Hkeys & Hother & Hth & Hsv & Ho & Hnow & Hjobs & Hlog).
    simpl in *. repeat split; try done.
    - by apply Hother.
    - rewrite Hth. by rewrite lookup_insert_ne. }
  destruct (throttle h !! entry_id entry) as [t|].
  - case_bool_decide.
    + simpl. repeat split; done.
    + erewrite bind_Ok; [|reflexivity]. by apply Hrun.
  - erewrite bind_Ok; [|reflexivity]. by apply Hrun.
Qed.

End PollCycle.

Section Unload.
Context {consts : Const} {host : Host}.

Lemma async_unload_entry_unregistered entry h :
  (∀ component, component ∈ PLATFORMS →
     forward_entry_unload (entry_id entry) component = Ok true) →
  (hass_data h ≫= PyDict.get (entry_id entry)) = None →
  let key := if decide (hass_data h = None) then DOMAIN else entry_id entry in
  async_unload_entry entry h = (Raise (KeyError key), h).
Proof.
  intros Hall Hnone. simpl. unfold async_unload_entry.
  rewrite (bind_Ok _ _ _ _ _ (gather_unload_all_ok _ _ Hall)). simpl.
  destruct (hass_data h) as [sessions|] eqn:Hd; simpl in Hnone.
  - erewrite bind_Raise; [done|].
    rewrite (bind_Ok _ _ _ _ _ (hass_data_DOMAIN_Some _ _ Hd)). by rewrite Hnone.
  - erewrite bind_Raise; [done|]. erewrite bind_Raise; [done|].
    unfold hass_data_DOMAIN. by rewrite Hd.
Qed.

(** X18: unloading an account that is not in the registry, when every
    teardown reports success, raises [KeyError] (the pop has no default),
    for the registry slot if it is missing and else for the entry id, and
    changes nothing. *)
Theorem unload_unregistered_account entry h :
  (∀ component, component ∈ PLATFORMS →
     forward_entry_unload (entry_id entry) component = Ok true) →
  (hass_data h ≫= PyDict.get (entry_id entry)) = None →
  let key := if decide (hass_data h = None) then DOMAIN else entry_id entry in
  async_unload_entry entry h = (Raise (KeyError key), h).
Proof.
  intros Hall Hnone. simpl. unfold async_unload_entry.
  rewrite (bind_Ok _ _ _ _ _ (gather_unload_all_ok _ _ Hall)). simpl.
  destruct (hass_data h) as [sessions|] eqn:Hd; simpl in Hnone.
  - erewrite bind_Raise; [done|].
    rewrite (bind_Ok _ _ _ _ _ (hass_data_DOMAIN_Some _ _ Hd)). by rewrite Hnone.
  - erewrite bind_Raise; [done|]. erewrite bind_Raise; [done|].
    unfold hass_data_DOMAIN. by rewrite Hd.
Qed.

(** X19: what an unload never does.  Whatever the teardowns report and
    whether the entry is registered, unloading makes no vendor call, logs
    nothing, keeps services, OAuth implementations, throttle stamps and
    clock, and leaves every other account's session in place. *)
Theorem unload_frame entry h :
  let h' := (async_unload_entry entry h).2 in
  executor_jobs h' = executor_jobs h ∧
  log_records h' = log_records h ∧
  hass_services h' = hass_services h ∧
  oauth_implementations h' = oauth_implementations h ∧
  throttle h' = throttle h ∧
  utcnow h' = utcnow h ∧
  ∀ other, other ≠ entry_id entry →
    (hass_data h' ≫= PyDict.get other) = (hass_data h ≫= PyDict.get other).
Proof.
  simpl. destruct (all_unloaded_dec entry) as [Hall|Hnot].
  - destruct (hass_data h ≫= PyDict.get (entry_id entry)) as [hc_api|] eqn:Hreg.
    + destruct (hass_data h) as [sessions|] eqn:Hd; [|done]. simpl in Hreg.
      unfold async_unload_entry.
      rewrite (bind_Ok _ _ _ _ _ (gather_unload_all_ok _ _ Hall)). simpl.
      erewrite bind_Ok.
      2: { rewrite (bind_Ok _ _ _ _ _ (hass_data_DOMAIN_Some _ _ Hd)).
           rewrite Hreg. reflexivity. }
      simpl. repeat split; try done.
      intros other Hne. by rewrite PyDictMore.get_remove_other.
    + rewrite (async_unload_entry_unregistered entry h Hall Hreg). simpl.
      by repeat split.
  - unfold async_unload_entry.
    destruct (gather_unload_not_all_ok entry h Hnot) as ([results|e] & Hrun & Hres).
    + rewrite (bind_Ok _ _ _ _ _ Hrun). rewrite (Hres results eq_refl). simpl.
      by repeat split.
    + rewrite (bind_Raise _ _ _ _ _ Hrun). simpl. by repeat split.
Qed.

End Unload.

Section AccountSetup.
Context {consts : Const} {vendor : Vendor} {host : Host} {accounts : Accounts}.

Lemma ML_bind_Ok {A B} (m : ML A) (f : A → ML B) l a l' :
  m l = (Ok a, l') → (m ≫= f) l = f a l'.
Proof. intros Hm. unfold mbind, ML_bind. by rewrite Hm. Qed.

Lemma ML_bind_Raise {A B} (m : ML A) (f : A → ML B) l e l' :
  m l = (Raise e, l') → (m ≫= f) l = (Raise e, l').
Proof. intros Hm. unfold mbind, ML_bind. by rewrite Hm. Qed.

Lemma create_tasks_run entry (components : list string) l :
  ML_for_each components
    (λ component,
       async_create_task {| task_entry := entry; task_component := component |}) l =
  (Ok tt,
   {| loop_hass := loop_hass l;
      loop_tasks :=
        loop_tasks l ++
        ((λ component, {| task_entry := entry; task_component := component |}) <$> components) |}).
Proof.
  revert l. induction components as [|c cs IH]; intros l; simpl.
  - rewrite app_nil_r. by destruct l.
  - erewrite ML_bind_Ok; [|reflexivity]. rewrite IH. simpl. by rewrite <- app_assoc.
Qed.

Lemma initialize_loop_raises devs h e :
  (for_each devs (λ device_dict, async_add_executor_job (JInitialize (device device_dict))) h).1
    = Raise e →
  ∃ history j, sdk_reply history j = Raise e.
Proof.
  revert h. induction devs as [|dd devs IH]; intros h; simpl; [done|].
  unfold mbind, M_bind. unfold async_add_executor_job at 1.
  destruct (sdk_reply (executor_jobs h) (JInitialize (device dd))) as [[]|e'] eqn:Hreply.
  - apply IH.
  - simpl. intros [= ->]. by eexists _, _.
Qed.

(** With a cloud whose only failures are transport failures, the body of
    the poller returns normally for a registered account. *)
Lemma update_all_devices_body_returns entry h sessions hc_api :
  only_transport_failures →
  hass_data h = Some sessions →
  PyDict.get (entry_id entry) sessions = Some hc_api →
  (update_all_devices_body entry h).1 = Ok tt.
Proof.
  intros Honly Hd Hget.
  rewrite (update_all_devices_body_registered _ _ _ _ Hd Hget).
  unfold try_except_HTTPError.
  destruct (update_all_devices_try entry hc_api h) as [[[]|e] h1] eqn:Htry; [done|].
  assert (∃ history j, sdk_reply history j = Raise e) as (history & j & Hreply).
  { unfold update_all_devices_try in Htry.
    pose proof (get_devices_run (entry_id entry) hc_api h sessions hc_api Hd Hget) as Hrun.
    simpl in Hrun.
    destruct (sdk_reply (executor_jobs h) (JGetDevices (entry_id entry))) as [[]|e'] eqn:Hfetch.
    - rewrite (bind_Ok _ _ _ _ _ Hrun) in Htry.
      eapply initialize_loop_raises. by rewrite Htry.
    - rewrite (bind_Raise _ _ _ _ _ Hrun) in Htry. injection Htry as -> _.
      by eexists _, _. }
  destruct (Honly _ _ _ Hreply) as [status ->]. done.
Qed.

Lemma update_all_devices_registered entry h sessions hc_api :
  hass_data h = Some sessions →
  PyDict.get (entry_id entry) sessions = Some hc_api →
  let r := update_all_devices entry h in
  (∃ hc_api', hass_data r.2 = Some (PyDict.set (entry_id entry) hc_api' sessions)) ∧
  (only_transport_failures → r.1 = Ok tt).
Proof.
  intros Hd Hget. simpl.
  assert (Some sessions = Some (PyDict.set (entry_id entry) hc_api sessions)) as Hsame.
  { by rewrite PyDictMore.set_same. }
  set (h0 := with_throttle (<[entry_id entry := utcnow h]> (throttle h)) h).
  assert ((∃ hc_api', hass_data (update_all_devices_body entry h0).2 =
             Some (PyDict.set (entry_id entry) hc_api' sessions)) ∧
          (only_transport_failures → (update_all_devices_body entry h0).1 = Ok tt)) as Hbody.
  { split.
    - destruct (update_all_devices_body_run entry h0 sessions hc_api Hd Hget)
        as (js & logs & sessions' & Hstate & _ & Hkeep & Hrefresh & _).
      rewrite Hstate. simpl.
      destruct (decide (sdk_reply (executor_jobs h0) (JGetDevices (entry_id entry)) = Ok tt))
        as [Hfetch|Hfetch].
      + rewrite (Hrefresh Hfetch). by eexists.
      + rewrite (Hkeep Hfetch). by exists hc_api.
    - intros Honly. by apply (update_all_devices_body_returns entry h0 sessions hc_api). }
  destruct (throttle h !! entry_id entry) as [t|] eqn:Ht.
  - destruct (decide (utcnow h - t ≤ SCAN_INTERVAL)) as [Hle|Hgt].
    + rewrite (update_all_devices_throttled _ _ _ Ht Hle). simpl.
      split; [by exists hc_api; rewrite Hd | done].
    + rewrite update_all_devices_runs; [exact Hbody|].
      intros t' Ht'. rewrite Ht in Ht'. injection Ht' as <-. lia.
  - rewrite update_all_devices_runs; [exact Hbody|].
    intros t' Ht'. by rewrite Ht in Ht'.
Qed.

Lemma register_session_run entry hc_api h sessions :
  hass_data h = Some sessions →
  register_session entry hc_api h =
    (Ok tt, with_hass_data (Some (PyDict.set (entry_id entry) hc_api sessions)) h).
Proof.
  intros Hd. unfold register_session.
  by rewrite (bind_Ok _ _ _ _ _ (hass_data_DOMAIN_Some _ _ Hd)).
Qed.

Lemma async_setup_entry_run entry l sessions implementation :
  hass_data (loop_hass l) = Some sessions →
  async_get_config_entry_implementation (loop_hass l) entry = Ok implementation →
  only_transport_failures →
  let r := async_setup_entry entry l in
  r.1 = Ok true ∧
  (∃ hc_api,
     hass_data (loop_hass r.2) = Some (PyDict.set (entry_id entry) hc_api sessions)) ∧
  loop_tasks r.2 =
    loop_tasks l ++
    ((λ component, {| task_entry := entry_id entry; task_component := component |})
       <$> PLATFORMS).
Proof.
  intros Hd Himpl Honly. cbv zeta. unfold async_setup_entry.
  erewrite ML_bind_Ok; [|by rewrite Himpl].
  set (hc_new := new_ConfigEntryAuth entry implementation).
  set (h1 := with_hass_data (Some (PyDict.set (entry_id entry) hc_new sessions)) (loop_hass l)).
  erewrite ML_bind_Ok.
  2: { unfold on_hass. rewrite (register_session_run _ _ _ _ Hd). reflexivity. }
  cbn [fst snd loop_hass loop_tasks].
  destruct (update_all_devices_registered entry h1
              (PyDict.set (entry_id entry) hc_new sessions) hc_new)
    as [[hc_api Hreg] Hok]; [done | apply PyDictMore.get_set_this |].
  rewrite PyDictMore.set_set in Hreg. specialize (Hok Honly).
  erewrite ML_bind_Ok.
  2: { unfold on_hass. cbn [fst snd loop_hass loop_tasks]. fold h1. rewrite Hok. reflexivity. }
  erewrite ML_bind_Ok; [|apply create_tasks_run].
  cbn [fst snd loop_hass loop_tasks]. split; [done|]. split; [|done]. by exists hc_api.
Qed.


(** X20: account setup.  With the registry slot in place, the OAuth
    implementation available and a cloud whose only failures are transport
    failures (which the first poll may well hit), setup returns [True];
    the account is registered under its entry id, in place if it was
    registered before and last otherwise; and one platform-setup task per
    platform has been created, in the order of [PLATFORMS]. *)
Theorem async_setup_entry_registers entry l sessions implementation :
  hass_data (loop_hass l) = Some sessions →
  async_get_config_entry_implementation (loop_hass l) entry = Ok implementation →
  only_transport_failures →
  let r := async_setup_entry entry l in
  r.1 = Ok true ∧
  (∃ hc_api,
     hass_data (loop_hass r.2) = Some (PyDict.set (entry_id entry) hc_api sessions)) ∧
  is_Some (hass_data (loop_hass r.2) ≫= PyDict.get (entry_id entry)) ∧
  (∀ other, other ≠ entry_id entry →
     (hass_data (loop_hass r.2) ≫= PyDict.get other) = PyDict.get other sessions) ∧
  loop_tasks r.2 =
    loop_tasks l ++
    ((λ component, {| task_entry := entry_id entry; task_component := component |})
       <$> PLATFORMS).
Proof.
  intros Hd Himpl Honly r.
  destruct (async_setup_entry_run entry l sessions implementation Hd Himpl Honly)
    as (Hok & [hc_api Hreg] & Htasks).
  fold r in Hok, Hreg, Htasks.
  split; [done|]. split; [by exists hc_api|]. rewrite Hreg. simpl.
  split; [|split; [|done]].
  - rewrite PyDictMore.get_set_this. by eexists.
  - intros other Hne. by apply PyDictMore.get_set_other.
Qed.

(** X21: setup followed by unload.  For an account that was not
    registered, a successful setup followed by an unload whose teardowns
    all report success returns [True] and leaves the registry exactly as
    it was before the setup. *)
Theorem setup_then_unload_restores_registry entry l sessions implementation :
  hass_data (loop_hass l) = Some sessions →
  PyDict.get (entry_id entry) sessions = None →
  async_get_config_entry_implementation (loop_hass l) entry = Ok implementation →
  only_transport_failures →
  (∀ component, component ∈ PLATFORMS →
     forward_entry_unload (entry_id entry) component = Ok true) →
  let l1 := (async_setup_entry entry l).2 in
  let r := async_unload_entry entry (loop_hass l1) in
  r.1 = Ok true ∧ hass_data r.2 = Some sessions.
Proof.
  intros Hd Hfresh Himpl Honly Hall l1 r.
  destruct (async_setup_entry_run entry l sessions implementation Hd Himpl Honly)
    as (_ & [hc_api Hreg] & _).
  fold l1 in Hreg. unfold r, async_unload_entry.
  rewrite (bind_Ok _ _ _ _ _ (gather_unload_all_ok _ _ Hall)). simpl.
  erewrite bind_Ok.
  2: { rewrite (bind_Ok _ _ _ _ _ (hass_data_DOMAIN_Some _ _ Hreg)).
       rewrite PyDictMore.get_set_this. reflexivity. }
  simpl. split; [done|]. by rewrite PyDictMore.remove_set_fresh.
Qed.

End AccountSetup.

Section AccountSetupFailures.
Context {consts : Const} {vendor : Vendor} {accounts : Accounts}.

(** X22: setup aborts before it touches anything when the OAuth
    implementation cannot be obtained or the registry slot is missing: it
    raises the lookup's exception, respectively [KeyError] for the slot,
    and no session is registered, no vendor call made and no platform task
    created. *)
Theorem async_setup_entry_aborts entry l :
  (∃ e, async_get_config_entry_implementation (loop_hass l) entry = Raise e) ∨
  hass_data (loop_hass l) = None →
  async_setup_entry entry l =
    (match async_get_config_entry_implementation (loop_hass l) entry with
     | Raise e => Raise e
     | Ok _ => Raise (KeyError DOMAIN)
     end, l).
Proof.
  intros Hfail. unfold async_setup_entry.
  destruct (async_get_config_entry_implementation (loop_hass l) entry)
    as [implementation|e] eqn:Himpl.
  - destruct Hfail as [[e [=]]|Hd].
    erewrite ML_bind_Ok; [|by rewrite Himpl].
    erewrite ML_bind_Raise; [reflexivity|].
    unfold on_hass.
    assert (register_session entry (new_ConfigEntryAuth entry implementation) (loop_hass l) =
            (Raise (KeyError DOMAIN), loop_hass l)) as ->.
    { unfold register_session. erewrite bind_Raise; [done|].
      unfold hass_data_DOMAIN. by rewrite Hd. }
    simpl. by destruct l.
  - erewrite ML_bind_Raise; [reflexivity|]. by rewrite Himpl.
Qed.

(** X23: an exception of the vendor SDK that is not a transport failure,
    raised by the device-list fetch of the first poll, is raised by setup.
    By then the new session is registered, and no platform task has been
    created: the account is left registered without entities. *)
Theorem async_setup_entry_sdk_error entry l sessions implementation e :
  hass_data (loop_hass l) = Some sessions →
  async_get_config_entry_implementation (loop_hass l) entry = Ok implementation →
  throttle (loop_hass l) !! entry_id entry = None →
  sdk_reply (executor_jobs (loop_hass l)) (JGetDevices (entry_id entry)) = Raise e →
  (∀ status, e ≠ HTTPError status) →
  let r := async_setup_entry entry l in
  r.1 = Raise e ∧
  loop_tasks r.2 = loop_tasks l ∧
  hass_data (loop_hass r.2) =
    Some (PyDict.set (entry_id entry) (new_ConfigEntryAuth entry implementation) sessions) ∧
  executor_jobs (loop_hass r.2) =
    executor_jobs (loop_hass l) ++ [JGetDevices (entry_id entry)].
Proof.
  intros Hd Himpl Hopen Hfetch Hsdk. cbv zeta. unfold async_setup_entry.
  erewrite ML_bind_Ok; [|by rewrite Himpl].
  set (hc_new := new_ConfigEntryAuth entry implementation).
  set (h1 := with_hass_data (Some (PyDict.set (entry_id entry) hc_new sessions)) (loop_hass l)).
  erewrite ML_bind_Ok.
  2: { unfold on_hass. rewrite (register_session_run _ _ _ _ Hd). reflexivity. }
  cbn [fst snd loop_hass loop_tasks]. fold h1.
  set (h0 := with_throttle (<[entry_id entry := utcnow h1]> (throttle h1)) h1).
  assert (update_all_devices entry h1 =
          (Raise e, with_executor_jobs (executor_jobs h0 ++ [JGetDevices (entry_id entry)]) h0))
    as Hpoll.
  { rewrite update_all_devices_runs by (intros t Ht; simpl in Ht; by rewrite Hopen in Ht).
    fold h0.
    rewrite (update_all_devices_body_registered entry h0
               (PyDict.set (entry_id entry) hc_new sessions) hc_new);
      [|done | apply PyDictMore.get_set_this].
    unfold try_except_HTTPError, update_all_devices_try.
    pose proof (get_devices_run (entry_id entry) hc_new h0
                  (PyDict.set (entry_id entry) hc_new sessions) hc_new eq_refl
                  (PyDictMore.get_set_this _ _ _)) as Hrun.
    simpl in Hrun. rewrite Hfetch in Hrun.
    rewrite (bind_Raise _ _ _ _ _ Hrun).
    destruct e; try done. by destruct (Hsdk status_code). }
  erewrite ML_bind_Raise.
  2: { unfold on_hass. cbn [fst snd loop_hass loop_tasks]. rewrite Hpoll. reflexivity. }
  simpl. by repeat split.
Qed.

End AccountSetupFailures.

(** * The further properties on concrete runs *)

Lemma resolver_sound_and_complete_witness :
  ∃ a, _get_appliance_by_entity_id (consts := const_py) (VStr "switch.oven_power")
         (hass0 two_accounts) = (Ok (Some a), hass0 two_accounts).
Proof.
  apply (resolver_sound_and_complete (consts := const_py) (hass0 two_accounts) two_accounts
           (VStr "switch.oven_power")); [reflexivity|].
  exists {| devices := [ {| device := oven |} ] |}, {| device := oven |},
    {| entity_id := "switch.oven_power" |}.
  split; [right; left|]. split; [left|]. split; [left | reflexivity].
Defined.

Lemma resolver_first_match_wins_witness :
  _get_appliance_by_entity_id (consts := const_py) (VStr "switch.dishwasher_power")
    (hass0 clashing_accounts) =
  (Ok (Some {| haId := "BOSCH-SMV-01" |}), hass0 clashing_accounts).
Proof.
  apply (resolver_first_match_wins (consts := const_py) (hass0 clashing_accounts)
           clashing_accounts []
           {| devices := [ {| device := oven |}; {| device := dishwasher |} ] |}
           [ {| devices := [ {| device := impostor |} ] |} ]
           [ {| device := oven |} ] {| device := dishwasher |} []
           (VStr "switch.dishwasher_power")).
  - reflexivity.
  - reflexivity.
  - reflexivity.
  - apply search_sessions_None. reflexivity.
  - intros dd' Hdd' (x & Hx & Heq). apply list_elem_of_singleton in Hdd' as ->.
    simpl in Hx. apply list_elem_of_singleton in Hx as ->. discriminate.
  - exists {| entity_id := "switch.dishwasher_power" |}. split; [left | reflexivity].
Defined.

Lemma resolver_unique_owner_witness :
  _get_appliance_by_entity_id (consts := const_py) (VStr "switch.oven_power")
    (hass0 two_accounts) =
  (Ok (Some {| haId := "SIEMENS-HB-02" |}), hass0 two_accounts).
Proof.
  apply (resolver_unique_owner (consts := const_py) (hass0 two_accounts) two_accounts
           {| devices := [ {| device := oven |} ] |} {| device := oven |}
           (VStr "switch.oven_power")).
  - reflexivity.
  - right. left.
  - left.
  - exists {| entity_id := "switch.oven_power" |}. split; [left | reflexivity].
  - intros hc' dd' Hhc' Hdd' (x & Hx & Heq).
    unfold PyDict.values in Hhc'. simpl in Hhc'.
    rewrite !elem_of_cons in Hhc'. destruct Hhc' as [->|[->|Hnil]].
    + simpl in Hdd'. apply list_elem_of_singleton in Hdd' as ->. simpl in Hx.
      rewrite !elem_of_cons in Hx. destruct Hx as [->|[->|Hnil]]; try discriminate.
      by apply elem_of_nil in Hnil.
    + simpl in Hdd'. by apply list_elem_of_singleton in Hdd' as ->.
    + by apply elem_of_nil in Hnil.
Defined.

Lemma validate_keeps_fields_witness :
  dom ({[ "entity_id" := VStr "switch.dishwasher_power";
          "key" := VStr "Cooking.Common.Setting.LightingBrightness";
          "value" := VStr "60" ]} : pyobj) = dom setting_payload_int.
Proof.
  apply (validate_keeps_fields (host := host_of (λ _, true))
           (SERVICE_SETTING_SCHEMA (consts := const_py)) setting_payload_int).
  vm_compute. reflexivity.
Defined.

Lemma services_require_entity_id_witness :
  ∃ v e, pause_unknown_payload !! "entity_id" = Some v ∧
         cv_entity_id (Host := host_of (λ _, true)) v = Some e ∧
         pause_unknown_payload !! "entity_id" = Some (VStr e).
Proof.
  apply (services_require_entity_id (consts := const_py) (host := host_of (λ _, true))
           ServicePause pause_unknown_payload pause_unknown_payload).
  vm_compute. reflexivity.
Defined.

Lemma program_request_options_witness :
  ∃ options,
    executor_jobs
      (call_handler (consts := const_py) (vendor := vendor_ok []) ServiceStart
         start_with_unit (hass0 one_account)).2 =
      [ JCall {| haId := "BOSCH-SMV-01" |} start_program
          [ AVal (VStr "Dishcare.Dishwasher.Program.Eco50"); options ] ] ∧
    (options = AVal VNone ↔
       data start_with_unit !! "option_key" = None ∨
       data start_with_unit !! "option_value" = None).
Proof.
  destruct (program_request_options (consts := const_py) (vendor := vendor_ok [])
              (host := host_of (λ _, true))
              ServiceStart "start_program" start_program
              (data start_with_unit) (data start_with_unit)
              (VStr "Dishcare.Dishwasher.Program.Eco50")
              (VStr "switch.dishwasher_power") {| haId := "BOSCH-SMV-01" |}
              (hass0 one_account) one_account)
    as (options & Hjobs & Hnone & _).
  - right. left.
  - reflexivity.
  - refine (bool_decide_unpack _ _). vm_compute. exact I.
  - refine (bool_decide_unpack _ _). vm_compute. exact I.
  - vm_compute. reflexivity.
  - vm_compute. reflexivity.
  - reflexivity.
  - vm_compute. reflexivity.
  - vm_compute. reflexivity.
  - exists options. split; [exact Hjobs | exact Hnone].
Defined.

Lemma dispatch_resolved_forwards_outcome_witness :
  ∃ m arguments debug,
    Forall (λ r, levelname r = DEBUG) debug ∧
    call_handler (consts := const_py) (vendor := vendor_ok []) ServiceSetting
      {| data := setting_payload_str |} (hass0 one_account) =
    (Ok tt,
     with_executor_jobs [JCall {| haId := "BOSCH-SMV-01" |} m arguments]
       (with_log_records debug (hass0 one_account))).
Proof.
  apply (dispatch_resolved_forwards_outcome (consts := const_py) (vendor := vendor_ok [])
           (host := host_of (λ _, true))
           ServiceSetting setting_payload_str setting_payload_str
           (VStr "switch.dishwasher_power") {| haId := "BOSCH-SMV-01" |}
           (hass0 one_account) one_account).
  - vm_compute. reflexivity.
  - reflexivity.
  - vm_compute. reflexivity.
  - vm_compute. reflexivity.
  - intros name Hname. rewrite !elem_of_cons in Hname.
    destruct Hname as [[=]|[[=]|Hnil]]. by apply elem_of_nil in Hnil.
Defined.

Lemma program_service_unknown_method_witness :
  let r := call_handler (consts := const_short_names) (vendor := vendor_ok []) ServiceStart
             start_with_unit (hass0 one_account) in
  r.1 = Raise (AttributeError "start") ∧
  executor_jobs r.2 = [].
Proof.
  destruct (program_service_unknown_method (consts := const_short_names)
              (vendor := vendor_ok [])
              ServiceStart "start" start_with_unit
              (VStr "Dishcare.Dishwasher.Program.Eco50")
              (VStr "switch.dishwasher_power") {| haId := "BOSCH-SMV-01" |}
              (AttributeError "start") (hass0 one_account) one_account)
    as (Hraise & Hjobs & _).
  - right. left.
  - vm_compute. reflexivity.
  - reflexivity.
  - vm_compute. reflexivity.
  - vm_compute. reflexivity.
  - vm_compute. reflexivity.
  - split; [exact Hraise | exact Hjobs].
Defined.

Lemma async_setup_missing_credential_witness :
  async_setup (consts := const_py) misconfigured (hass0 two_accounts) =
    (Raise (KeyError "client_secret"), hass0 []).
Proof.
  assert (misconfigured !! "home_connect" = Some ({[ "client_id" := "id" ]} : gmap string string))
    as Hconf by (vm_compute; reflexivity).
  assert (({[ "client_id" := "id" ]} : gmap string string) !! "client_id" = None ∨
          ({[ "client_id" := "id" ]} : gmap string string) !! "client_secret" = None)
    as Hmissing by (right; vm_compute; reflexivity).
  pose proof (async_setup_missing_credential (consts := const_py) misconfigured
                {[ "client_id" := "id" ]} (hass0 two_accounts) Hconf Hmissing) as Hrun.
  vm_compute in Hrun |- *. exact Hrun.
Defined.

Lemma async_setup_registers_services_witness :
  let r := async_setup (consts := const_py) configured (hass0 []) in
  r.1 = Ok true ∧
  ∀ f, hass_services r.2 !! ("home_connect", service_name (consts := const_py) f) =
       Some {| service_func := f;
               service_schema := handler_schema (consts := const_py) f |}.
Proof.
  destruct (async_setup_registers_services (consts := const_py) configured
              {[ "client_id" := "id"; "client_secret" := "secret" ]} "id" "secret"
              (hass0 []))
    as (Hok & Hservices & _).
  - vm_compute. reflexivity.
  - vm_compute. reflexivity.
  - vm_compute. reflexivity.
  - refine (bool_decide_unpack _ _). vm_compute. exact I.
  - split; [exact Hok | exact Hservices].
Defined.

Lemma poll_cycle_all_calls_succeed_witness :
  update_all_devices_body (consts := const_py) (vendor := vendor_ok three_devices) entry1
    (hass0 one_account) =
  (Ok tt,
   with_hass_data (Some [ ("entry-1", {| devices := three_devices |}) ])
     (with_executor_jobs
        [ JGetDevices "entry-1"; JInitialize dishwasher; JInitialize oven; JInitialize washer ]
        (hass0 one_account))).
Proof.
  apply (poll_cycle_all_calls_succeed (consts := const_py) (vendor := vendor_ok three_devices)
           entry1 (hass0 one_account) one_account
           {| devices := [ {| device := dishwasher |} ] |}).
  - reflexivity.
  - vm_compute. reflexivity.
  - reflexivity.
  - intros i dd _. reflexivity.
Defined.

Lemma poll_cycle_ends_at_first_failure_witness :
  update_all_devices_body (consts := const_py)
    (vendor := vendor_one_init_fails three_devices "SIEMENS-HB-02") entry1
    (hass0 one_account) =
  (Ok tt,
   with_log_records [cannot_update_record 503]
     (with_hass_data (Some [ ("entry-1", {| devices := three_devices |}) ])
        (with_executor_jobs
           [ JGetDevices "entry-1"; JInitialize dishwasher; JInitialize oven ]
           (hass0 one_account)))).
Proof.
  apply (poll_cycle_ends_at_first_failure (consts := const_py)
           (vendor := vendor_one_init_fails three_devices "SIEMENS-HB-02")
           entry1 (hass0 one_account) one_account
           {| devices := [ {| device := dishwasher |} ] |}
           [ {| device := dishwasher |} ] {| device := oven |} [ {| device := washer |} ]
           (HTTPError 503)).
  - reflexivity.
  - vm_compute. reflexivity.
  - reflexivity.
  - reflexivity.
  - intros i dd' Hi. destruct i as [|i]; simpl in Hi.
    + injection Hi as <-. vm_compute. reflexivity.
    + discriminate.
  - vm_compute. reflexivity.
Defined.

Lemma poll_cycle_fetch_fails_witness :
  update_all_devices_body (consts := const_py) (vendor := vendor_fetch_raises) entry1
    (hass0 one_account) =
  (Raise HomeConnectError,
   with_executor_jobs [ JGetDevices "entry-1" ] (hass0 one_account)).
Proof.
  apply (poll_cycle_fetch_fails (consts := const_py) (vendor := vendor_fetch_raises)
           entry1 (hass0 one_account) one_account
           {| devices := [ {| device := dishwasher |} ] |} HomeConnectError).
  - reflexivity.
  - vm_compute. reflexivity.
  - reflexivity.
Defined.

Lemma poll_unregistered_account_witness :
  update_all_devices_body (consts := const_py) (vendor := vendor_ok []) entry9
    (hass0 one_account) =
  (Raise (KeyError "entry-9"), hass0 one_account).
Proof.
  apply (poll_unregistered_account (consts := const_py) (vendor := vendor_ok []) entry9
           (hass0 one_account)).
  vm_compute. reflexivity.
Defined.

Lemma unload_unregistered_account_witness :
  async_unload_entry (consts := const_py) (host := host_of (λ _, true)) entry9
    (hass0 one_account) =
  (Raise (KeyError "entry-9"), hass0 one_account).
Proof.
  apply (unload_unregistered_account (consts := const_py) (host := host_of (λ _, true))
           entry9 (hass0 one_account)).
  - intros component _. reflexivity.
  - vm_compute. reflexivity.
Defined.

Lemma async_setup_entry_registers_witness :
  let r := async_setup_entry (consts := const_py)
             (vendor := vendor_init_fails [ {| device := oven |} ] 503)
             (accounts := accounts_ok) entry2 (loop0 one_account) in
  r.1 = Ok true ∧
  is_Some (hass_data (loop_hass r.2) ≫= PyDict.get "entry-2") ∧
  loop_tasks r.2 =
    [ {| task_entry := "entry-2"; task_component := "binary_sensor" |};
      {| task_entry := "entry-2"; task_component := "light" |};
      {| task_entry := "entry-2"; task_component := "sensor" |};
      {| task_entry := "entry-2"; task_component := "switch" |} ].
Proof.
  destruct (async_setup_entry_registers (consts := const_py)
              (vendor := vendor_init_fails [ {| device := oven |} ] 503)
              (accounts := accounts_ok) entry2 (loop0 one_account) one_account
              {| impl_domain := "home_connect"; impl_client_id := "id";
                 impl_client_secret := "secret";
                 impl_authorize_url := "https://api.home-connect.com/security/oauth/authorize";
                 impl_token_url := "https://api.home-connect.com/security/oauth/token" |})
    as (Hok & _ & Hreg & _ & Htasks).
  - reflexivity.
  - reflexivity.
  - intros history j e. simpl. destruct j; intros [= <-]. by eexists.
  - split; [exact Hok|]. split; [exact Hreg | exact Htasks].
Defined.

Lemma setup_then_unload_restores_registry_witness :
  let l1 := (async_setup_entry (consts := const_py) (vendor := vendor_ok [ {| device := oven |} ])
               (accounts := accounts_ok) entry2 (loop0 one_account)).2 in
  let r := async_unload_entry (consts := const_py) (host := host_of (λ _, true)) entry2
             (loop_hass l1) in
  r.1 = Ok true ∧ hass_data r.2 = Some one_account.
Proof.
  apply (setup_then_unload_restores_registry (consts := const_py)
           (vendor := vendor_ok [ {| device := oven |} ])
           (host := host_of (λ _, true)) (accounts := accounts_ok)
           entry2 (loop0 one_account) one_account
           {| impl_domain := "home_connect"; impl_client_id := "id";
              impl_client_secret := "secret";
              impl_authorize_url := "https://api.home-connect.com/security/oauth/authorize";
              impl_token_url := "https://api.home-connect.com/security/oauth/token" |}).
  - reflexivity.
  - vm_compute. reflexivity.
  - reflexivity.
  - intros history j e. simpl. discriminate.
  - intros component _. reflexivity.
Defined.

Lemma async_setup_entry_aborts_witness :
  async_setup_entry (consts := const_py) (vendor := vendor_ok [])
    (accounts := accounts_unavailable) entry1 (loop0 []) =
  (Raise (KeyError "auth_implementation"), loop0 []).
Proof.
  apply (async_setup_entry_aborts (consts := const_py) (vendor := vendor_ok [])
           (accounts := accounts_unavailable) entry1 (loop0 [])).
  left. by eexists.
Defined.

Lemma async_setup_entry_sdk_error_witness :
  let r := async_setup_entry (consts := const_py) (vendor := vendor_fetch_raises)
             (accounts := accounts_ok) entry2 (loop0 one_account) in
  r.1 = Raise HomeConnectError ∧
  loop_tasks r.2 = [] ∧
  hass_data (loop_hass r.2) = Some (PyDict.set "entry-2" {| devices := [] |} one_account) ∧
  executor_jobs (loop_hass r.2) = [ JGetDevices "entry-2" ].
Proof.
  apply (async_setup_entry_sdk_error (consts := const_py) (vendor := vendor_fetch_raises)
           (accounts := accounts_ok) entry2 (loop0 one_account) one_account
           {| impl_domain := "home_connect"; impl_client_id := "id";
              impl_client_secret := "secret";
              impl_authorize_url := "https://api.home-connect.com/security/oauth/authorize";
              impl_token_url := "https://api.home-connect.com/security/oauth/token" |}
           HomeConnectError).
  - reflexivity.
  - reflexivity.
  - reflexivity.
  - reflexivity.
  - intros status. discriminate.
Defined.
